(** * DisplaySettings: the admin form for the display settings row

    A verification development for
    [src/components/admin/DisplaySettings.tsx]: the settings loader
    ([fetchSettings]), the image uploader ([handleImageUpload]), the form
    schema ([formSchema]) and the settings saver ([onSubmit]).

    The component talks to three outside parties: the backend (table
    [app_settings] and the storage bucket [images]), the notification
    library and the console.  Every call to one of them is recorded as an
    [event]; what they answer is an input of the model.  The JavaScript
    values the form holds are modelled by [JS.value], JavaScript numbers
    by IEEE 754 binary64 ([spec_float] at precision 53). *)

From Stdlib Require Import ZArith String Ascii List Bool Lia.
From Stdlib Require Import Floats.SpecFloat.
From Stdlib Require Decimal DecimalString DecimalPos.
Import ListNotations.

Local Open Scope string_scope.

(** ** JavaScript values *)

Module JS.

(** A Number is a binary64 float: a [spec_float] in the format of
    precision 53 and maximal exponent 1024.  Everything [ToNumber] below
    returns is rounded into that format. *)
Definition number : Type := spec_float.

Definition prec : Z := 53.
Definition emax : Z := 1024.

(** The Number nearest to an integer (round to nearest, ties to even). *)
Definition of_Z (n : Z) : number := binary_normalize prec emax n 0 false.

Definition isNaN (x : number) : bool :=
  match x with S754_nan => true | _ => false end.

Definition isZero (x : number) : bool :=
  match x with S754_zero _ => true | _ => false end.

(** [x < y] on Numbers; false as soon as one side is NaN. *)
Definition lt (x y : number) : bool := SFltb x y.

(** [x <= y] on Numbers; false as soon as one side is NaN. *)
Definition le (x y : number) : bool := SFleb x y.

(** [x === y] on Numbers. *)
Definition num_eq (x y : number) : bool := SFeqb x y.

(** [Number.isInteger]. *)
Definition isInteger (x : number) : bool :=
  match x with
  | S754_zero _ => true
  | S754_finite _ m e =>
      if (0 <=? e)%Z then true else (Z.pos m mod 2 ^ (- e) =? 0)%Z
  | S754_infinity _ | S754_nan => false
  end.

(** The primitive values that occur in the form, in a settings row and in
    the answers of the backend.  Strings are sequences of 8-bit code
    units. *)
Inductive value : Type :=
  | Undefined
  | Null
  | Boolean (b : bool)
  | Num (x : number)
  | Str (s : string).

(** [ToBoolean]: what [if (v)], [!v] and [v || w] look at. *)
Definition truthy (v : value) : bool :=
  match v with
  | Undefined | Null => false
  | Boolean b => b
  | Num x => negb (isZero x || isNaN x)
  | Str s => negb (s =? "")
  end.

(** [a || b]. *)
Definition or (a b : value) : value := if truthy a then a else b.

(** [a === b]. *)
Definition strict_eq (a b : value) : bool :=
  match a, b with
  | Undefined, Undefined => true
  | Null, Null => true
  | Boolean x, Boolean y => Bool.eqb x y
  | Num x, Num y => num_eq x y
  | Str x, Str y => (x =? y)
  | _, _ => false
  end.

(** *** Strings *)

(** Whether the code unit [c] occurs in [s]. *)
Fixpoint contains (c : ascii) (s : string) : bool :=
  match s with
  | EmptyString => false
  | String c' s' => (Ascii.eqb c' c || contains c s')%bool
  end.

(** [s.split(sep)] for a separator of one code unit: the pieces of [s]
    between the occurrences of [sep], in order.  [cur] is the piece being
    read. *)
Fixpoint split_from (sep : ascii) (cur s : string) : list string :=
  match s with
  | EmptyString => [cur]
  | String c s' =>
      if Ascii.eqb c sep then cur :: split_from sep "" s'
      else split_from sep (cur ++ String c "") s'
  end.

Definition split (sep : ascii) (s : string) : list string :=
  split_from sep "" s.

(** [a.pop()] as far as its result goes: the last element, [undefined] on
    an empty array. *)
Definition pop (a : list string) : option string :=
  match rev a with
  | [] => None
  | x :: _ => Some x
  end.

(** How a template literal prints the result of [pop]. *)
Definition template (x : option string) : string :=
  match x with
  | Some s => s
  | None => "undefined"
  end.

(** *** Number(v) *)

Definition code_unit (c : ascii) : Z := Z.of_nat (nat_of_ascii c).

(** White space and line terminators among the 8-bit code units: TAB, LF,
    VT, FF, CR, SP and NBSP. *)
Definition isWhiteSpace (c : ascii) : bool :=
  let n := code_unit c in
  ((9 <=? n) && (n <=? 13) || (n =? 32) || (n =? 160))%Z.

(** Whether [s] is made of white space only. *)
Fixpoint all_white (s : string) : bool :=
  match s with
  | EmptyString => true
  | String c s' => (isWhiteSpace c && all_white s')%bool
  end.

Fixpoint trimStart (s : string) : string :=
  match s with
  | EmptyString => EmptyString
  | String c s' => if isWhiteSpace c then trimStart s' else s
  end.

(** Drops the white space at the end; [None] stands for a string of
    white space only. *)
Fixpoint trimEnd_aux (s : string) : option string :=
  match s with
  | EmptyString => None
  | String c s' =>
      match trimEnd_aux s' with
      | Some t => Some (String c t)
      | None => if isWhiteSpace c then None else Some (String c "")
      end
  end.

Definition trim (s : string) : string :=
  match trimEnd_aux (trimStart s) with
  | Some t => t
  | None => ""
  end.

(** The value of a digit in a base up to 16, if [c] is one. *)
Definition digit_of (base : Z) (c : ascii) : option Z :=
  let n := code_unit c in
  let d :=
    if ((48 <=? n) && (n <=? 57))%Z then Some (n - 48)%Z
    else if ((97 <=? n) && (n <=? 102))%Z then Some (n - 87)%Z
    else if ((65 <=? n) && (n <=? 70))%Z then Some (n - 55)%Z
    else None in
  match d with
  | Some v => if (v <? base)%Z then Some v else None
  | None => None
  end.

(** The longest prefix of digits, most significant first, and the rest. *)
Fixpoint span_digits (base : Z) (s : string) : list Z * string :=
  match s with
  | EmptyString => ([], EmptyString)
  | String c s' =>
      match digit_of base c with
      | Some d => let (ds, r) := span_digits base s' in (d :: ds, r)
      | None => ([], s)
      end
  end.

Definition digits_value (base : Z) (ds : list Z) : Z :=
  fold_left (fun acc d => acc * base + d)%Z ds 0%Z.

(** The Number for the decimal [m * 10^e], [m >= 0], with the sign
    [neg]: a zero keeps the sign, everything else is rounded to the
    nearest binary64, ties to even. *)
Definition round_decimal (neg : bool) (m e : Z) : number :=
  match m with
  | Z0 => S754_zero neg
  | Zpos p =>
      if (0 <=? e)%Z
      then binary_normalize prec emax
             (if neg then - (m * 10 ^ e) else m * 10 ^ e)%Z 0 false
      else SFdiv prec emax (S754_finite neg p 0)
             (S754_finite false (Z.to_pos (10 ^ (- e))) 0)
  | Zneg _ => S754_nan
  end.

(** [ExponentPart]: an [e] or [E], an optional sign, and digits to the
    end of the string.  No exponent part stands for the exponent 0. *)
Definition exponent_part (s : string) : option Z :=
  match s with
  | EmptyString => Some 0%Z
  | String c r =>
      if (Ascii.eqb c "e" || Ascii.eqb c "E")%bool then
        let (neg, r') :=
          match r with
          | String c' r'' =>
              if Ascii.eqb c' "-" then (true, r'')
              else if Ascii.eqb c' "+" then (false, r'')
              else (false, r)
          | EmptyString => (false, r)
          end in
        match span_digits 10 r' with
        | ((_ :: _) as ds, EmptyString) =>
            let v := digits_value 10 ds in
            Some (if neg then - v else v)%Z
        | _ => None
        end
      else None
  end.

(** [StrUnsignedDecimalLiteral] with the sign read before it. *)
Definition unsigned_decimal (neg : bool) (s : string) : number :=
  if s =? "Infinity" then S754_infinity neg
  else
    let (ip, r1) := span_digits 10 s in
    let '(fp, r2) :=
      match r1 with
      | String c r =>
          if Ascii.eqb c "." then span_digits 10 r else ([], r1)
      | EmptyString => ([], r1)
      end in
    match (ip ++ fp)%list with
    | [] => S754_nan
    | ds =>
        match exponent_part r2 with
        | Some e =>
            round_decimal neg (digits_value 10 ds)
              (e - Z.of_nat (List.length fp))
        | None => S754_nan
        end
    end.

(** [NonDecimalIntegerLiteral]: [0x], [0o] or [0b] and digits to the end
    of the string. *)
Definition non_decimal (s : string) : option number :=
  match s with
  | String z (String p r) =>
      if Ascii.eqb z "0" then
        let base :=
          if (Ascii.eqb p "x" || Ascii.eqb p "X")%bool then Some 16%Z
          else if (Ascii.eqb p "o" || Ascii.eqb p "O")%bool then Some 8%Z
          else if (Ascii.eqb p "b" || Ascii.eqb p "B")%bool then Some 2%Z
          else None in
        match base with
        | Some b =>
            match span_digits b r with
            | ((_ :: _) as ds, EmptyString) => Some (of_Z (digits_value b ds))
            | _ => Some S754_nan
            end
        | None => None
        end
      else None
  | _ => None
  end.

(** [StringToNumber]. *)
Definition StringToNumber (s : string) : number :=
  match trim s with
  | EmptyString => S754_zero false
  | String c r as t =>
      match non_decimal t with
      | Some x => x
      | None =>
          if Ascii.eqb c "-" then unsigned_decimal true r
          else if Ascii.eqb c "+" then unsigned_decimal false r
          else unsigned_decimal false t
      end
  end.

(** The decimal numeral of a positive integer, without sign, leading
    zero, point or exponent: what the number input holds when that
    integer has been typed into it. *)
Definition decimal (p : positive) : string :=
  DecimalString.NilEmpty.string_of_uint (Pos.to_uint p).

(** The digits of a decimal numeral, most significant first. *)
Fixpoint uint_digits (u : Decimal.uint) : list Z :=
  match u with
  | Decimal.Nil => []
  | Decimal.D0 u' => 0%Z :: uint_digits u'
  | Decimal.D1 u' => 1%Z :: uint_digits u'
  | Decimal.D2 u' => 2%Z :: uint_digits u'
  | Decimal.D3 u' => 3%Z :: uint_digits u'
  | Decimal.D4 u' => 4%Z :: uint_digits u'
  | Decimal.D5 u' => 5%Z :: uint_digits u'
  | Decimal.D6 u' => 6%Z :: uint_digits u'
  | Decimal.D7 u' => 7%Z :: uint_digits u'
  | Decimal.D8 u' => 8%Z :: uint_digits u'
  | Decimal.D9 u' => 9%Z :: uint_digits u'
  end.

(** [Number(v)]. *)
Definition ToNumber (v : value) : number :=
  match v with
  | Undefined => S754_nan
  | Null => S754_zero false
  | Boolean b => if b then of_Z 1 else S754_zero false
  | Num x => x
  | Str s => StringToNumber s
  end.

End JS.

(** ** The schema library

    The combinators [formSchema] is built from.  A schema takes the raw
    value of a field and answers with the parsed value or with the issues
    it found. *)

Module Zod.
Import JS.

Inductive issue : Type :=
  | invalid_type
  | not_integer
  | too_small (message : string).

Definition schema : Type := value -> value + list issue.

Definition check (A : Type) : Type := A -> option issue.

(** All checks run; each failing one adds its issue. *)
Definition run_checks {A : Type} (cs : list (check A)) (x : A) : list issue :=
  flat_map (fun c => match c x with Some i => [i] | None => [] end) cs.

Definition checked {A : Type} (cs : list (check A)) (x : A) (v : value)
  : value + list issue :=
  match run_checks cs x with
  | [] => inl v
  | i :: l => inr (i :: l)
  end.

(** [z.string()] with its checks. *)
Definition z_string (cs : list (check string)) : schema :=
  fun v =>
    match v with
    | Str s => checked cs s v
    | _ => inr [invalid_type]
    end.

(** [.min(n, message)] on a string. *)
Definition min_length (n : nat) (message : string) : check string :=
  fun s => if (String.length s <? n)%nat then Some (too_small message) else None.

(** [z.coerce.number()] with its checks: the input goes through
    [Number(...)] first, and NaN is refused as not a number. *)
Definition z_coerce_number (cs : list (check number)) : schema :=
  fun v =>
    let x := ToNumber v in
    if isNaN x then inr [invalid_type] else checked cs x (Num x).

(** [.int()]. *)
Definition z_int : check number :=
  fun x => if isInteger x then None else Some not_integer.

(** [.min(bound, message)] on a number. *)
Definition z_min (bound : number) (message : string) : check number :=
  fun x => if lt x bound then Some (too_small message) else None.

(** [.nullable()]. *)
Definition z_nullable (inner : schema) : schema :=
  fun v => match v with Null => inl Null | _ => inner v end.

(** [.optional()]. *)
Definition z_optional (inner : schema) : schema :=
  fun v => match v with Undefined => inl Undefined | _ => inner v end.

(** [.default(d)]: an absent input is replaced by [d] before the inner
    schema runs. *)
Definition z_default (inner : schema) (d : value) : schema :=
  fun v => match v with Undefined => inner d | _ => inner v end.

Definition issues (r : value + list issue) : list issue :=
  match r with inl _ => [] | inr l => l end.

End Zod.

(** ** The backend, the notifications and the console *)

Module Backend.
Import JS.

(** An error object: what [error.code] and [error.message] give. *)
Record Error : Type := { code : value; message : string }.

(** [new Error(message)]. *)
Definition new_Error (m : string) : Error := {| code := Undefined; message := m |}.

(** The three columns of the settings row. *)
Record AppSettings : Type := {
  background_image_url : value;
  background_color : value;
  screensaver_idle_minutes : value
}.

(** The object given to [upsert]. *)
Record UpsertRow : Type := { id : Z; columns : AppSettings }.

(** The [{ data, error }] a backend call resolves to. *)
Record Response (A : Type) : Type := { data : option A; error : option Error }.
Arguments data {A} _.
Arguments error {A} _.
Arguments Build_Response {A} _ _.

(** The file picked in the file input. *)
Record File : Type := { name : string; content : string }.

(** An awaited storage upload resolves to a response or rejects. *)
Inductive UploadOutcome : Type :=
  | Resolved (r : Response string)
  | Rejected (e : Error).

Inductive event : Type :=
  | Select (table columns eq_column : string) (eq_value : Z)
  | Upsert (table : string) (row : UpsertRow) (onConflict : string)
  | StorageUpload (bucket path : string) (file : File)
      (cacheControl : string) (upsert : bool)
  | GetPublicUrl (bucket path : string)
  | ToastLoading (text : string)
  | ToastSuccess (text : string) (toast_id : option value)
  | ToastError (text : string) (toast_id : option value)
  | ConsoleError (text : string) (err : Error)
  | ConsoleLog (text : string) (payload : option value).

Definition is_upsert (e : event) : bool :=
  match e with Upsert _ _ _ => true | _ => false end.

Definition is_toast_error (e : event) : bool :=
  match e with ToastError _ _ => true | _ => false end.

Definition is_toast_success (e : event) : bool :=
  match e with ToastSuccess _ _ => true | _ => false end.

Definition is_toast (e : event) : bool :=
  match e with
  | ToastLoading _ | ToastSuccess _ _ | ToastError _ _ => true
  | _ => false
  end.

Definition is_console_error (e : event) : bool :=
  match e with ConsoleError _ _ => true | _ => false end.

(** A request to the backend: table or storage. *)
Definition is_request (e : event) : bool :=
  match e with
  | Select _ _ _ _ | Upsert _ _ _ | StorageUpload _ _ _ _ _
  | GetPublicUrl _ _ => true
  | _ => false
  end.

(** The bucket and the path a storage call addresses. *)
Definition storage_target (e : event) : option (string * string) :=
  match e with
  | StorageUpload b p _ _ _ | GetPublicUrl b p => Some (b, p)
  | _ => None
  end.

Definition count (p : event -> bool) (l : list event) : nat :=
  List.length (filter p l).

End Backend.

(** ** The component *)

Module DisplaySettings.
Import JS Zod Backend.

(** *** The form *)

Record DisplaySettingsFormValues : Type := {
  backgroundImageUrl : value;
  backgroundColor : value;
  screensaverIdleMinutes : value
}.

(** The issues found per field; no issue anywhere is the empty errors
    object. *)
Record FieldErrors : Type := {
  backgroundImageUrl_issues : list issue;
  backgroundColor_issues : list issue;
  screensaverIdleMinutes_issues : list issue
}.

Definition no_errors : FieldErrors :=
  {| backgroundImageUrl_issues := [];
     backgroundColor_issues := [];
     screensaverIdleMinutes_issues := [] |}.

Definition backgroundImageUrl_schema : schema :=
  z_optional (z_nullable (z_string [])).

Definition backgroundColor_schema : schema :=
  z_default
    (z_string [min_length 1 "Warna latar belakang tidak boleh kosong."])
    (Str "#0A0A0A").

Definition screensaverIdleMinutes_schema : schema :=
  z_default
    (z_coerce_number
       [z_int; z_min (of_Z 1) "Durasi screensaver harus minimal 1 menit."])
    (Num (of_Z 5)).

(** [formSchema] run on the raw field values: the parsed values when no
    field has an issue, the issues of every field otherwise. *)
Definition formSchema (raw : DisplaySettingsFormValues)
  : DisplaySettingsFormValues + FieldErrors :=
  let u := backgroundImageUrl_schema (backgroundImageUrl raw) in
  let c := backgroundColor_schema (backgroundColor raw) in
  let m := screensaverIdleMinutes_schema (screensaverIdleMinutes raw) in
  match u, c, m with
  | inl u', inl c', inl m' =>
      inl {| backgroundImageUrl := u';
             backgroundColor := c';
             screensaverIdleMinutes := m' |}
  | _, _, _ =>
      inr {| backgroundImageUrl_issues := issues u;
             backgroundColor_issues := issues c;
             screensaverIdleMinutes_issues := issues m |}
  end.

(** The values the type of the image URL field allows: a string, null or
    nothing. *)
Definition well_typed_url (v : value) : Prop :=
  match v with
  | Undefined | Null | Str _ => True
  | Boolean _ | Num _ => False
  end.

Definition defaultValues : DisplaySettingsFormValues :=
  {| backgroundImageUrl := Null;
     backgroundColor := Str "#0A0A0A";
     screensaverIdleMinutes := Num (of_Z 5) |}.

(** What the component holds between two events: the form ([values],
    [errors], [isSubmitting]) and the preview state. *)
Record state : Type := {
  values : DisplaySettingsFormValues;
  errors : FieldErrors;
  isSubmitting : bool;
  currentImageUrl : value
}.

Definition initial : state :=
  {| values := defaultValues;
     errors := no_errors;
     isSubmitting := false;
     currentImageUrl := Null |}.

Inductive field : Type :=
  | f_backgroundImageUrl
  | f_backgroundColor
  | f_screensaverIdleMinutes.

Definition set_field (f : field) (v : value) (vs : DisplaySettingsFormValues)
  : DisplaySettingsFormValues :=
  match f with
  | f_backgroundImageUrl =>
      {| backgroundImageUrl := v;
         backgroundColor := backgroundColor vs;
         screensaverIdleMinutes := screensaverIdleMinutes vs |}
  | f_backgroundColor =>
      {| backgroundImageUrl := backgroundImageUrl vs;
         backgroundColor := v;
         screensaverIdleMinutes := screensaverIdleMinutes vs |}
  | f_screensaverIdleMinutes =>
      {| backgroundImageUrl := backgroundImageUrl vs;
         backgroundColor := backgroundColor vs;
         screensaverIdleMinutes := v |}
  end.

Definition with_values (vs : DisplaySettingsFormValues) (st : state) : state :=
  {| values := vs; errors := errors st;
     isSubmitting := isSubmitting st; currentImageUrl := currentImageUrl st |}.

Definition with_errors (es : FieldErrors) (st : state) : state :=
  {| values := values st; errors := es;
     isSubmitting := isSubmitting st; currentImageUrl := currentImageUrl st |}.

Definition with_isSubmitting (b : bool) (st : state) : state :=
  {| values := values st; errors := errors st;
     isSubmitting := b; currentImageUrl := currentImageUrl st |}.

Definition with_currentImageUrl (v : value) (st : state) : state :=
  {| values := values st; errors := errors st;
     isSubmitting := isSubmitting st; currentImageUrl := v |}.

(** *** Handlers as computations

    A handler reads and writes the component state, calls the outside
    (each call is an [event], in order) and may throw. *)

Definition Eff (A : Type) : Type := state -> (Error + A) * state * list event.

Definition ret {A : Type} (a : A) : Eff A := fun st => (inr a, st, []).

Definition bind {A B : Type} (m : Eff A) (k : A -> Eff B) : Eff B :=
  fun st =>
    match m st with
    | (inr a, st1, l1) =>
        let '(r, st2, l2) := k a st1 in (r, st2, (l1 ++ l2)%list)
    | (inl e, st1, l1) => (inl e, st1, l1)
    end.

Definition throw {A : Type} (e : Error) : Eff A := fun st => (inl e, st, []).

(** [try { m } catch (error) { h error }]. *)
Definition try_catch {A : Type} (m : Eff A) (h : Error -> Eff A) : Eff A :=
  fun st =>
    match m st with
    | (inl e, st1, l1) =>
        let '(r, st2, l2) := h e st1 in (r, st2, (l1 ++ l2)%list)
    | (inr a, st1, l1) => (inr a, st1, l1)
    end.

(** Runs [m] and hands its outcome over instead of throwing. *)
Definition attempt {A : Type} (m : Eff A) : Eff (Error + A) :=
  fun st => let '(r, st1, l1) := m st in (inr r, st1, l1).

Definition emit (e : event) : Eff unit := fun st => (inr tt, st, [e]).

Definition get : Eff state := fun st => (inr st, st, []).

Definition modify (f : state -> state) : Eff unit := fun st => (inr tt, f st, []).

Declare Scope eff_scope.
Delimit Scope eff_scope with eff.
Notation "x <- m ;; k" := (bind m (fun x => k))
  (at level 61, m at next level, right associativity) : eff_scope.
Notation "m ;; k" := (bind m (fun _ => k))
  (at level 61, right associativity) : eff_scope.
Local Open Scope eff_scope.

(** The state after a handler, and the calls it made. *)
Definition state_after {A : Type} (m : Eff A) (st : state) : state :=
  snd (fst (m st)).

Definition trace {A : Type} (m : Eff A) (st : state) : list event :=
  snd (m st).

Definition outcome {A : Type} (m : Eff A) (st : state) : Error + A :=
  fst (fst (m st)).

(** [setValue(field, v)] of the form. *)
Definition setValue (f : field) (v : value) : Eff unit :=
  modify (fun st => with_values (set_field f v (values st)) st).

Definition setCurrentImageUrl (v : value) : Eff unit :=
  modify (with_currentImageUrl v).

(** *** Settings loader *)

Definition fetchSettings (resp : Response AppSettings) : Eff unit :=
  emit (Select "app_settings"
          "background_image_url, background_color, screensaver_idle_minutes"
          "id" 1) ;;
  let otherwise :=
    match data resp with
    | Some d =>
        setValue f_backgroundImageUrl (background_image_url d) ;;
        setCurrentImageUrl (background_image_url d) ;;
        setValue f_backgroundColor (or (background_color d) (Str "#0A0A0A")) ;;
        setValue f_screensaverIdleMinutes
          (or (screensaver_idle_minutes d) (Num (of_Z 5)))
    | None => ret tt
    end in
  match error resp with
  | Some e =>
      if negb (strict_eq (code e) (Str "PGRST116")) then
        emit (ConsoleError "Error fetching display settings:" e) ;;
        emit (ToastError "Gagal memuat pengaturan tampilan." None)
      else otherwise
  | None => otherwise
  end.

(** The effect run on mount, on the freshly created form. *)
Definition mount (resp : Response AppSettings) : state * list event :=
  (state_after (fetchSettings resp) initial, trace (fetchSettings resp) initial).

(** *** Image uploader *)

(** What the outside answers during one upload: the identifier
    [uuidv4()] returns, the identifier [toast.loading] returns, the
    outcome of the storage upload, and the [data] of [getPublicUrl]
    ([None] when it is null or undefined, otherwise its [publicUrl]). *)
Record UploadEnv : Type := {
  uuid : string;
  uploadToastId : value;
  uploaded : UploadOutcome;
  publicUrlData : option value
}.

(** [files?.[0]]. *)
Definition first_file (files : option (list File)) : option File :=
  match files with
  | Some (f :: _) => Some f
  | _ => None
  end.

(** [publicUrlData?.publicUrl]. *)
Definition publicUrl (d : option value) : value :=
  match d with
  | Some v => v
  | None => Undefined
  end.

Definition fileExtension (file : File) : option string :=
  pop (split "." (name file)).

Definition fileName (env : UploadEnv) (file : File) : string :=
  uuid env ++ "." ++ template (fileExtension file).

Definition filePath (env : UploadEnv) (file : File) : string :=
  "backgrounds/" ++ fileName env file.

Definition handleImageUpload (files : option (list File)) (env : UploadEnv)
  : Eff unit :=
  match first_file files with
  | None => ret tt
  | Some file =>
      emit (ToastLoading "Mengunggah gambar latar belakang...") ;;
      try_catch
        (emit (StorageUpload "images" (filePath env file) file "3600" false) ;;
         match uploaded env with
         | Rejected e => throw e
         | Resolved r =>
             match error r with
             | Some e => throw e
             | None =>
                 emit (GetPublicUrl "images" (filePath env file)) ;;
                 if truthy (publicUrl (publicUrlData env)) then
                   setValue f_backgroundImageUrl (publicUrl (publicUrlData env)) ;;
                   setCurrentImageUrl (publicUrl (publicUrlData env)) ;;
                   emit (ToastSuccess "Gambar latar belakang berhasil diunggah!"
                           (Some (uploadToastId env)))
                 else throw (new_Error "Gagal mendapatkan URL publik gambar.")
             end
         end)
        (fun error =>
           emit (ConsoleError "Error uploading image:" error) ;;
           emit (ToastError ("Gagal mengunggah gambar: " ++ message error)
                   (Some (uploadToastId env))))
  end.

(** The events of a failed upload, whatever made it fail: the [catch]
    block. *)
Definition upload_failure (env : UploadEnv) (e : Error) : list event :=
  [ConsoleError "Error uploading image:" e;
   ToastError ("Gagal mengunggah gambar: " ++ message e)
     (Some (uploadToastId env))].

(** The state after a successful upload. *)
Definition uploaded_state (url : value) (st : state) : state :=
  with_currentImageUrl url
    (with_values (set_field f_backgroundImageUrl url (values st)) st).

(** *** Settings saver *)

(** The call [onSubmit] awaits. *)
Definition onSubmit_request (vs : DisplaySettingsFormValues) : event :=
  Upsert "app_settings"
    {| id := 1;
       columns :=
         {| background_image_url := or (backgroundImageUrl vs) Null;
            background_color := backgroundColor vs;
            screensaver_idle_minutes := screensaverIdleMinutes vs |} |}
    "id".

(** What [onSubmit] does once the call has been answered. *)
Definition onSubmit_answer (resp : Response value) : list event :=
  match error resp with
  | Some e =>
      [ConsoleError "Error saving display settings:" e;
       ToastError "Gagal menyimpan pengaturan tampilan." None]
  | None =>
      [ToastSuccess "Pengaturan tampilan berhasil disimpan!" None;
       ConsoleLog "Display settings saved:" (data resp)]
  end.

Definition emit_all (l : list event) : Eff unit := fun st => (inr tt, st, l).

Definition onSubmit (resp : Response value) (vs : DisplaySettingsFormValues)
  : Eff unit :=
  emit (onSubmit_request vs) ;;
  emit_all (onSubmit_answer resp).

(** *** Submission

    [handleSubmit(onValid)] of the form library with the schema as
    resolver: the form is marked as submitting, the field values are
    validated, [onValid] runs on the parsed values only if there is no
    issue, and the mark is taken off again at the end.  It refuses no
    call: it has no look at whether a submission is already running.

    [onValid] is awaited, so the handler is given in the two parts that
    run before and after it: [handleSubmit_begin] goes up to the call of
    [onValid] and hands over the parsed values if [onValid] is to be
    called; [handleSubmit_end] goes on from what [onValid] came back
    with. *)
Definition handleSubmit_begin : Eff (option DisplaySettingsFormValues) :=
  modify (with_isSubmitting true) ;;
  st <- get ;;
  match formSchema (values st) with
  | inl parsed =>
      modify (with_errors no_errors) ;;
      ret (Some parsed)
  | inr es =>
      modify (with_errors es) ;;
      modify (with_isSubmitting false) ;;
      ret None
  end.

Definition handleSubmit_end (r : Error + unit) : Eff unit :=
  modify (with_isSubmitting false) ;;
  match r with
  | inl e => throw e
  | inr _ => ret tt
  end.

Definition handleSubmit (onValid : DisplaySettingsFormValues -> Eff unit)
  : Eff unit :=
  parsed <- handleSubmit_begin ;;
  match parsed with
  | Some vs =>
      r <- attempt (onValid vs) ;;
      handleSubmit_end r
  | None => ret tt
  end.

(** [<form onSubmit={handleSubmit(onSubmit)}>]. *)
Definition submit (resp : Response value) : Eff unit :=
  handleSubmit (onSubmit resp).

(** [disabled={isSubmitting}] on the submit button. *)
Definition submit_disabled (st : state) : bool := isSubmitting st.

(** *** Typing into a registered input *)

(** The issues the resolver reports for the values, all fields. *)
Definition resolver_errors (vs : DisplaySettingsFormValues) : FieldErrors :=
  match formSchema vs with
  | inl _ => no_errors
  | inr es => es
  end.

Definition get_issues (f : field) (es : FieldErrors) : list issue :=
  match f with
  | f_backgroundImageUrl => backgroundImageUrl_issues es
  | f_backgroundColor => backgroundColor_issues es
  | f_screensaverIdleMinutes => screensaverIdleMinutes_issues es
  end.

Definition set_issues (f : field) (l : list issue) (es : FieldErrors)
  : FieldErrors :=
  match f with
  | f_backgroundImageUrl =>
      {| backgroundImageUrl_issues := l;
         backgroundColor_issues := backgroundColor_issues es;
         screensaverIdleMinutes_issues := screensaverIdleMinutes_issues es |}
  | f_backgroundColor =>
      {| backgroundImageUrl_issues := backgroundImageUrl_issues es;
         backgroundColor_issues := l;
         screensaverIdleMinutes_issues := screensaverIdleMinutes_issues es |}
  | f_screensaverIdleMinutes =>
      {| backgroundImageUrl_issues := backgroundImageUrl_issues es;
         backgroundColor_issues := backgroundColor_issues es;
         screensaverIdleMinutes_issues := l |}
  end.

(** The change handler [register(name)] gives an input, for a form that
    validates at submission and, once it has been submitted, again at
    every change: the value is stored, and if [isSubmitted] the resolver
    runs on the values and the issues of this field, and of this field
    only, are replaced by what it reports. *)
Definition onChange (isSubmitted : bool) (f : field) (v : value) : Eff unit :=
  setValue f v ;;
  if isSubmitted then
    st <- get ;;
    modify
      (with_errors
         (set_issues f (get_issues f (resolver_errors (values st))) (errors st)))
  else ret tt.

(** [{currentImageUrl && <img src={currentImageUrl} />}]: the source of the
    preview image, when the preview is rendered. *)
Definition preview (st : state) : option value :=
  if truthy (currentImageUrl st) then Some (currentImageUrl st) else None.

(** The preview state and the image field of the form hold the same
    value. *)
Definition in_sync (st : state) : Prop :=
  currentImageUrl st = backgroundImageUrl (values st).

(** What the schema lets through, field by field. *)
Definition acceptable_color (v : value) : Prop :=
  v = Undefined \/ exists c, v = Str c /\ c <> "".

Definition acceptable_minutes (v : value) : Prop :=
  v = Undefined \/
  (isNaN (ToNumber v) = false /\
   isInteger (ToNumber v) = true /\
   lt (ToNumber v) (of_Z 1) = false).

(** A row this form may send: the image URL null or a non-empty string,
    the colour a non-empty string, the minutes a whole Number at least
    1. *)
Definition sendable (row : AppSettings) : Prop :=
  (background_image_url row = Null \/
   exists u, background_image_url row = Str u /\ u <> "") /\
  (exists c, background_color row = Str c /\ c <> "") /\
  (exists x, screensaver_idle_minutes row = Num x /\
             isInteger x = true /\ le (of_Z 1) x = true).

End DisplaySettings.

(** ** The component over time

    A step is one task of the event loop: an event together with the
    part of its handler that runs before the handler has to wait for the
    backend.  A submission is started by a submit event of the form, or by
    a click on the submit button, which is a submit event unless the button
    is disabled; it is finished by the answer to its upsert.  The resolver
    of the form asks nothing of the outside, so a submit event is followed
    by validation and, for valid values, by the upsert request within its
    own task.  [saving] holds the parsed values of the submissions whose
    upsert is not answered yet.  [isSubmitted] is the flag of that name the
    form library keeps: set at the end of a submission, it makes every
    later change of a field validate that field again. *)

Module Lifecycle.
Import JS Zod Backend DisplaySettings.

Record world : Type := {
  component : state;
  isSubmitted : bool;
  saving : list DisplaySettingsFormValues;
  log : list event
}.

Definition start : world :=
  {| component := initial; isSubmitted := false; saving := []; log := [] |}.

Inductive input : Type :=
  | Loaded (resp : Response AppSettings)
  | Typed (f : field) (v : value)
  | Picked (files : option (list File)) (env : UploadEnv)
  | Submitted
  | Clicked
  | Saved (resp : Response value).

(** A handler that runs from its start to its end within one step. *)
Definition within_step {A : Type} (m : Eff A) (w : world) : world :=
  {| component := state_after m (component w);
     isSubmitted := isSubmitted w;
     saving := saving w;
     log := (log w ++ trace m (component w))%list |}.

(** [handleSubmit(onSubmit)] up to the point where it waits: when the
    values are valid [onSubmit] has sent its request and the upsert is in
    flight; otherwise the handler is over. *)
Definition begin_submission (w : world) : world :=
  let w' := within_step handleSubmit_begin w in
  match outcome handleSubmit_begin (component w) with
  | inr (Some parsed) =>
      {| component := component w';
         isSubmitted := isSubmitted w;
         saving := (saving w ++ [parsed])%list;
         log := (log w' ++ [onSubmit_request parsed])%list |}
  | inr None | inl _ =>
      {| component := component w';
         isSubmitted := true;
         saving := saving w;
         log := log w' |}
  end.

(** The rest of [handleSubmit(onSubmit)], run when the upsert is
    answered: the rest of [onSubmit], then the end of [handleSubmit]. *)
Definition end_submission (resp : Response value)
    (rest : list DisplaySettingsFormValues) (w : world) : world :=
  let finish :=
    (r <- attempt (emit_all (onSubmit_answer resp)) ;; handleSubmit_end r)%eff in
  {| component := state_after finish (component w);
     isSubmitted := true;
     saving := rest;
     log := (log w ++ trace finish (component w))%list |}.

(** One event; [None] when the event cannot happen in [w]: only an
    upsert in flight can be answered.  A click on the disabled button
    changes nothing. *)
Definition step (w : world) (i : input) : option world :=
  match i with
  | Loaded resp => Some (within_step (fetchSettings resp) w)
  | Typed f v => Some (within_step (onChange (isSubmitted w) f v) w)
  | Picked files env => Some (within_step (handleImageUpload files env) w)
  | Submitted => Some (begin_submission w)
  | Clicked =>
      if submit_disabled (component w) then Some w
      else Some (begin_submission w)
  | Saved resp =>
      match saving w with
      | [] => None
      | _ :: rest => Some (end_submission resp rest w)
      end
  end.

Fixpoint run (w : world) (ins : list input) : option world :=
  match ins with
  | [] => Some w
  | i :: ins' =>
      match step w i with
      | Some w' => run w' ins'
      | None => None
      end
  end.



(** Every upsert in the log goes to [app_settings] with id 1 and
    conflict target [id] and carries a row the form may send. *)
Definition log_sendable (w : world) : Prop :=
  forall t row c,
    In (Upsert t row c) (log w) ->
    t = "app_settings" /\ c = "id" /\ id row = 1%Z /\ sendable (columns row).

Definition is_saved (i : input) : bool :=
  match i with Saved _ => true | _ => false end.

(** The number of upsert answers among the events. *)
Definition answered (ins : list input) : nat :=
  List.length (filter is_saved ins).

(** The image field has no input of its own: the user types into the
    colour and the minutes only. *)
Definition types_into_image_field (i : input) : bool :=
  match i with
  | Typed f_backgroundImageUrl _ => true
  | _ => false
  end.

End Lifecycle.

(** ** Sample inputs *)

Module Samples.
Import JS Zod Backend DisplaySettings Lifecycle.

Definition photo : File := {| name := "photo.png"; content := "" |}.

Definition stored : Response string :=
  {| data := Some "backgrounds/123e4567-e89b-42d3-a456-426614174000.png";
     error := None |}.

(** An upload that goes well. *)
Definition upload_ok : UploadEnv :=
  {| uuid := "123e4567-e89b-42d3-a456-426614174000";
     uploadToastId := Num (of_Z 1);
     uploaded := Resolved stored;
     publicUrlData :=
       Some (Str "https://cdn.example/storage/v1/object/public/images/backgrounds/123e4567-e89b-42d3-a456-426614174000.png") |}.

(** An upload that is stored but gets no public URL. *)
Definition upload_no_url : UploadEnv :=
  {| uuid := "123e4567-e89b-42d3-a456-426614174000";
     uploadToastId := Num (of_Z 7);
     uploaded := Resolved stored;
     publicUrlData := None |}.

Definition saved_ok : Response value := {| data := None; error := None |}.

Definition not_found : Response AppSettings :=
  {| data := None;
     error :=
       Some {| code := Str "PGRST116";
               message := "JSON object requested, multiple (or no) rows returned" |} |}.

Definition unreachable : Response AppSettings :=
  {| data := None;
     error := Some {| code := Str ""; message := "TypeError: Failed to fetch" |} |}.

(** A row whose image URL is the empty string. *)
Definition empty_url_row : Response AppSettings :=
  {| data :=
       Some {| background_image_url := Str "";
               background_color := Str "#112233";
               screensaver_idle_minutes := Num (of_Z 15) |};
     error := None |}.

(** A row whose three columns are null. *)
Definition empty_row : Response AppSettings :=
  {| data :=
       Some {| background_image_url := Null;
               background_color := Null;
               screensaver_idle_minutes := Null |};
     error := None |}.

(** The form after the user has typed [minutes] and [color] and the
    image field has been set to [url]. *)
Definition form_with (url : value) (color minutes : string) : state :=
  with_values
    {| backgroundImageUrl := url;
       backgroundColor := Str color;
       screensaverIdleMinutes := Str minutes |}
    initial.

End Samples.

(** ** Facts about the JavaScript operations *)

Module JSFacts.
Import JS.

Lemma split_from_not_nil (sep : ascii) (s cur : string) :
  split_from sep cur s <> [].
Proof.
  revert cur; induction s as [|c s IH]; intros cur; simpl.
  - discriminate.
  - destruct (Ascii.eqb c sep); [discriminate | apply IH].
Qed.

Lemma pop_cons (x : string) (l : list string) :
  l <> [] -> pop (x :: l) = pop l.
Proof.
  intros Hl. unfold pop. simpl.
  destruct (rev l) as [|y r] eqn:E.
  - apply (f_equal (@rev string)) in E. rewrite rev_involutive in E.
    simpl in E. contradiction.
  - reflexivity.
Qed.

Lemma pop_split_from_not_None (sep : ascii) (s cur : string) :
  pop (split_from sep cur s) <> None.
Proof.
  unfold pop. destruct (rev (split_from sep cur s)) as [|y r] eqn:E.
  - apply (f_equal (@rev string)) in E. rewrite rev_involutive in E.
    simpl in E. now apply split_from_not_nil in E.
  - discriminate.
Qed.

Lemma append_empty_r (s : string) : s ++ "" = s.
Proof. induction s; simpl; congruence. Qed.

Lemma append_snoc (a : string) (c : ascii) (b : string) :
  (a ++ String c "") ++ b = a ++ String c b.
Proof. induction a; simpl; congruence. Qed.

(** A string without the separator is one piece. *)
Lemma split_from_no_sep (sep : ascii) (s : string) :
  contains sep s = false ->
  forall cur, split_from sep cur s = [cur ++ s].
Proof.
  induction s as [|c s IH]; simpl; intros H cur.
  - now rewrite append_empty_r.
  - apply orb_false_elim in H as [Hc Hs]. rewrite Hc.
    rewrite (IH Hs). now rewrite append_snoc.
Qed.

(** The last piece is what follows the last separator. *)
Lemma pop_split_from_last (sep : ascii) (ext : string) :
  contains sep ext = false ->
  forall stem cur,
    pop (split_from sep cur (stem ++ String sep ext)) = Some ext.
Proof.
  intros H stem; induction stem as [|c stem IH]; intros cur; simpl.
  - rewrite Ascii.eqb_refl. rewrite (split_from_no_sep _ _ H). reflexivity.
  - destruct (Ascii.eqb c sep).
    + rewrite pop_cons by apply split_from_not_nil. apply IH.
    + apply IH.
Qed.

Lemma split_last (sep : ascii) (stem ext : string) :
  contains sep ext = false ->
  pop (split sep (stem ++ String sep ext)) = Some ext.
Proof. intros H. apply pop_split_from_last, H. Qed.

Lemma split_whole (sep : ascii) (s : string) :
  contains sep s = false -> pop (split sep s) = Some s.
Proof. intros H. unfold split. now rewrite (split_from_no_sep _ _ H). Qed.

Lemma length_append (a b : string) :
  String.length (a ++ b) = (String.length a + String.length b)%nat.
Proof. induction a; simpl; congruence. Qed.

(** *** Numbers *)

Lemma of_Z_1 : of_Z 1 = S754_finite false 4503599627370496 (-52).
Proof. reflexivity. Qed.

Lemma SFcompare_antisym (x y : number) (c : comparison) :
  SFcompare x y = Some c -> SFcompare y x = Some (CompOpp c).
Proof.
  destruct x as [sx|sx| |sx mx ex], y as [sy|sy| |sy my ey]; simpl;
    try discriminate;
    try (intros [= <-]; try destruct sx; try destruct sy; reflexivity).
  intros [= <-]. f_equal.
  destruct sx, sy; try reflexivity.
  - rewrite (Z.compare_antisym ex ey).
    destruct (ex ?= ey)%Z; simpl; try reflexivity.
    rewrite CompOpp_involutive.
    now rewrite (Pos.compare_cont_antisym my mx Eq).
  - rewrite (Z.compare_antisym ex ey).
    destruct (ex ?= ey)%Z; simpl; try reflexivity.
    now rewrite (Pos.compare_cont_antisym mx my Eq).
Qed.

(** Zero is below one. *)
Lemma zero_lt_one (x : number) : isZero x = true -> lt x (of_Z 1) = true.
Proof. destruct x; try discriminate. reflexivity. Qed.

(** What is below zero is below one. *)
Lemma negative_lt_one (x : number) :
  lt x (S754_zero false) = true -> lt x (of_Z 1) = true.
Proof.
  rewrite of_Z_1. destruct x as [s|s| |s m e]; try discriminate;
    destruct s; try discriminate; reflexivity.
Qed.

(** [1 <= x] excludes [x < 1] and NaN. *)
Lemma one_le_not_lt (x : number) :
  le (of_Z 1) x = true -> lt x (of_Z 1) = false /\ isNaN x = false.
Proof.
  unfold le, lt, SFleb, SFltb. intros H.
  destruct (SFcompare (of_Z 1) x) as [c|] eqn:E; [|discriminate].
  rewrite (SFcompare_antisym _ _ _ E).
  split.
  - destruct c; try reflexivity; discriminate.
  - destruct x; try reflexivity. discriminate.
Qed.

Lemma truthy_or (a b : value) : truthy a = true -> or a b = a.
Proof. unfold or. now intros ->. Qed.

Lemma falsy_or (a b : value) : truthy a = false -> or a b = b.
Proof. unfold or. now intros ->. Qed.

Lemma strict_eq_Str (v : value) (s : string) :
  strict_eq v (Str s) = true <-> v = Str s.
Proof.
  destruct v; simpl; split; try discriminate; try congruence.
  - intros H. apply String.eqb_eq in H. now subst.
  - intros [= ->]. apply String.eqb_refl.
Qed.

End JSFacts.

(** ** How the handlers run *)

Module Runs.
Import JS Zod Backend DisplaySettings JSFacts.

(** The four ways an upload of [file] goes. *)
Lemma handleImageUpload_run (file : File) (rest : list File)
    (env : UploadEnv) (st : state) :
  handleImageUpload (Some (file :: rest)) env st =
  let p := filePath env file in
  let begun :=
    [ToastLoading "Mengunggah gambar latar belakang...";
     StorageUpload "images" p file "3600" false] in
  let url := publicUrl (publicUrlData env) in
  match uploaded env with
  | Rejected e => (inr tt, st, (begun ++ upload_failure env e)%list)
  | Resolved r =>
      match error r with
      | Some e => (inr tt, st, (begun ++ upload_failure env e)%list)
      | None =>
          if truthy url then
            (inr tt, uploaded_state url st,
             (begun ++
              [GetPublicUrl "images" p;
               ToastSuccess "Gambar latar belakang berhasil diunggah!"
                 (Some (uploadToastId env))])%list)
          else
            (inr tt, st,
             (begun ++
              GetPublicUrl "images" p ::
              upload_failure env
                (new_Error "Gagal mendapatkan URL publik gambar."))%list)
      end
  end.
Proof.
  unfold handleImageUpload, first_file, try_catch, bind, emit.
  destruct (uploaded env) as [r|e]; [|reflexivity].
  destruct (error r) as [e|]; [reflexivity|].
  destruct (truthy (publicUrl (publicUrlData env))); reflexivity.
Qed.

Lemma handleImageUpload_no_file (files : option (list File))
    (env : UploadEnv) (st : state) :
  first_file files = None -> handleImageUpload files env st = (inr tt, st, []).
Proof. unfold handleImageUpload. now intros ->. Qed.

(** The first part of a submission marks the form, validates, and
    either hands over the parsed values, with the form still marked, or
    records the issues and takes the mark off. *)
Lemma handleSubmit_begin_run (st : state) :
  handleSubmit_begin st =
  match formSchema (values st) with
  | inl parsed =>
      (inr (Some parsed),
       with_errors no_errors (with_isSubmitting true st), [])
  | inr es =>
      (inr None,
       with_isSubmitting false (with_errors es (with_isSubmitting true st)),
       [])
  end.
Proof.
  unfold handleSubmit_begin, bind, modify, get, ret. simpl.
  destruct (formSchema (values st)); reflexivity.
Qed.

(** A submission either is blocked by the schema or makes the one call
    of [onSubmit]. *)
Lemma submit_run (resp : Response value) (st : state) :
  submit resp st =
  match formSchema (values st) with
  | inl parsed =>
      (inr tt,
       with_isSubmitting false (with_errors no_errors (with_isSubmitting true st)),
       onSubmit_request parsed :: onSubmit_answer resp)
  | inr es =>
      (inr tt,
       with_isSubmitting false (with_errors es (with_isSubmitting true st)),
       [])
  end.
Proof.
  unfold submit, handleSubmit, bind. rewrite handleSubmit_begin_run.
  destruct (formSchema (values st)); [|reflexivity].
  unfold attempt, onSubmit, handleSubmit_end, bind, modify, emit, emit_all, ret.
  simpl. rewrite ?app_nil_r. reflexivity.
Qed.

(** The three ways the load goes. *)
Lemma fetchSettings_run (resp : Response AppSettings) (st : state) :
  fetchSettings resp st =
  let asked :=
    Select "app_settings"
      "background_image_url, background_color, screensaver_idle_minutes"
      "id" 1 in
  let populated :=
    match data resp with
    | Some d =>
        with_values
          {| backgroundImageUrl := background_image_url d;
             backgroundColor := or (background_color d) (Str "#0A0A0A");
             screensaverIdleMinutes :=
               or (screensaver_idle_minutes d) (Num (of_Z 5)) |}
          (with_currentImageUrl (background_image_url d) st)
    | None => st
    end in
  match error resp with
  | Some e =>
      if strict_eq (code e) (Str "PGRST116")
      then (inr tt, populated, [asked])
      else (inr tt, st,
            [asked;
             ConsoleError "Error fetching display settings:" e;
             ToastError "Gagal memuat pengaturan tampilan." None])
  | None => (inr tt, populated, [asked])
  end.
Proof.
  unfold fetchSettings, bind, emit, setValue, setCurrentImageUrl, modify, ret.
  destruct (error resp) as [e|].
  - destruct (strict_eq (code e) (Str "PGRST116")); simpl;
      [destruct (data resp)|]; reflexivity.
  - destruct (data resp); reflexivity.
Qed.

(** *** The schema *)

Lemma backgroundImageUrl_schema_ok (v : value) :
  well_typed_url v -> backgroundImageUrl_schema v = inl v.
Proof. destruct v; simpl; intros H; try contradiction; reflexivity. Qed.

Lemma backgroundColor_schema_ok (c : string) :
  c <> "" -> backgroundColor_schema (Str c) = inl (Str c).
Proof. destruct c; [congruence | reflexivity]. Qed.

Lemma screensaverIdleMinutes_schema_ok (v : value) :
  isInteger (ToNumber v) = true ->
  le (of_Z 1) (ToNumber v) = true ->
  screensaverIdleMinutes_schema v = inl (Num (ToNumber v)).
Proof.
  intros Hi Hle. apply one_le_not_lt in Hle as [Hlt Hnan].
  assert (E : screensaverIdleMinutes_schema v =
              z_coerce_number
                [z_int; z_min (of_Z 1) "Durasi screensaver harus minimal 1 menit."] v)
    by (destruct v; [discriminate Hnan | reflexivity ..]).
  rewrite E. unfold z_coerce_number, checked, run_checks, z_int, z_min.
  rewrite Hnan. cbn [flat_map app]. rewrite Hi, Hlt. reflexivity.
Qed.

Lemma screensaverIdleMinutes_schema_blocks (v : value) :
  v <> Undefined ->
  isZero (ToNumber v) = true \/
  lt (ToNumber v) (S754_zero false) = true \/
  isNaN (ToNumber v) = true ->
  exists i l, screensaverIdleMinutes_schema v = inr (i :: l).
Proof.
  intros Hv H.
  assert (E : screensaverIdleMinutes_schema v =
              z_coerce_number
                [z_int; z_min (of_Z 1) "Durasi screensaver harus minimal 1 menit."] v)
    by (destruct v; [congruence | reflexivity ..]).
  rewrite E. unfold z_coerce_number.
  destruct (isNaN (ToNumber v)) eqn:Hnan; [now eexists; eexists|].
  assert (Hlt : lt (ToNumber v) (of_Z 1) = true).
  { destruct H as [H|[H|H]];
      [now apply zero_lt_one | now apply negative_lt_one | congruence]. }
  unfold checked, run_checks, z_int, z_min. cbn [flat_map app]. rewrite Hlt.
  destruct (isInteger (ToNumber v)); cbn [app]; now eexists; eexists.
Qed.

Lemma formSchema_blocked_by_minutes (raw : DisplaySettingsFormValues) i l :
  screensaverIdleMinutes_schema (screensaverIdleMinutes raw) = inr (i :: l) ->
  exists es, formSchema raw = inr es /\ screensaverIdleMinutes_issues es = i :: l.
Proof.
  intros H. unfold formSchema. rewrite H.
  destruct (backgroundImageUrl_schema _), (backgroundColor_schema _);
    eexists; split; reflexivity.
Qed.

Lemma formSchema_blocked_by_color (raw : DisplaySettingsFormValues) i l :
  backgroundColor_schema (backgroundColor raw) = inr (i :: l) ->
  exists es, formSchema raw = inr es /\ backgroundColor_issues es = i :: l.
Proof.
  intros H. unfold formSchema. rewrite H.
  destruct (backgroundImageUrl_schema _); eexists; split; reflexivity.
Qed.

(** What the schema lets through is the raw image URL itself. *)
Lemma formSchema_keeps_url (raw parsed : DisplaySettingsFormValues) :
  formSchema raw = inl parsed ->
  backgroundImageUrl parsed = backgroundImageUrl raw.
Proof.
  unfold formSchema.
  destruct (backgroundImageUrl_schema (backgroundImageUrl raw)) as [u|] eqn:E;
    [|discriminate].
  destruct (backgroundColor_schema _); [|discriminate].
  destruct (screensaverIdleMinutes_schema _); [|discriminate].
  intros [= <-]. simpl.
  destruct (backgroundImageUrl raw); simpl in E; try discriminate;
    now injection E as <-.
Qed.

End Runs.

(** ** Image uploader: properties *)

Module UploadProperties.
Import JS Zod Backend DisplaySettings Samples JSFacts Runs.

Lemma filePath_extension (stem ext body : string) (env : UploadEnv) :
  contains "." ext = false ->
  filePath env {| name := stem ++ "." ++ ext; content := body |} =
  "backgrounds/" ++ uuid env ++ "." ++ ext.
Proof.
  intros H. unfold filePath, fileName, fileExtension. cbn [name].
  change (stem ++ "." ++ ext) with (stem ++ String "." ext).
  now rewrite (split_last _ _ _ H).
Qed.

Lemma filePath_no_dot (nm body : string) (env : UploadEnv) :
  contains "." nm = false ->
  filePath env {| name := nm; content := body |} =
  "backgrounds/" ++ uuid env ++ "." ++ nm.
Proof.
  intros H. unfold filePath, fileName, fileExtension. cbn [name].
  now rewrite (split_whole _ _ H).
Qed.

(** Whatever happens, an upload asks the storage for the one path and
    nothing else of the backend. *)
Lemma upload_requests (file : File) (rest : list File) (env : UploadEnv)
    (st : state) (e : event) :
  In e (trace (handleImageUpload (Some (file :: rest)) env) st) ->
  is_request e = true ->
  storage_target e = Some ("images", filePath env file).
Proof.
  unfold trace. rewrite handleImageUpload_run. cbv zeta.
  destruct (uploaded env) as [r|err];
    [destruct (error r) as [err|];
       [|destruct (truthy (publicUrl (publicUrlData env)))]|];
    cbn [snd app upload_failure In];
    intros H; repeat (destruct H as [<-|H]; [try discriminate|]);
    try contradiction; intros _; reflexivity.
Qed.

Lemma upload_begins (file : File) (rest : list File) (env : UploadEnv)
    (st : state) :
  In (StorageUpload "images" (filePath env file) file "3600" false)
     (trace (handleImageUpload (Some (file :: rest)) env) st).
Proof.
  unfold trace. rewrite handleImageUpload_run. cbv zeta.
  destruct (uploaded env) as [r|err];
    [destruct (error r) as [err|];
       [|destruct (truthy (publicUrl (publicUrlData env)))]|];
    cbn [snd app In]; auto.
Qed.

Lemma upload_never_upserts (files : option (list File)) (env : UploadEnv)
    (st : state) :
  count is_upsert (trace (handleImageUpload files env) st) = 0%nat.
Proof.
  destruct (first_file files) as [f|] eqn:E.
  - destruct files as [[|f' rest]|]; try discriminate.
    unfold trace. rewrite handleImageUpload_run. cbv zeta.
    destruct (uploaded env) as [r|err];
      [destruct (error r) as [err|];
         [|destruct (truthy (publicUrl (publicUrlData env)))]|];
      reflexivity.
  - unfold trace. now rewrite (handleImageUpload_no_file _ _ _ E).
Qed.

(** C1. For a file whose name ends in an extension ([stem.ext], no dot
    in [ext]) the upload targets the path [backgrounds/<uuid>.<ext>] in the
    bucket [images], the identifier being the 36 characters the generator
    returned; every backend request of the handler is a storage call on
    that path, so the settings row is not written; and when the upload
    succeeds and a public URL is derived, the image field of the form and
    the preview both hold that URL. *)
Theorem upload_targets_backgrounds_path
    (stem ext body : string) (rest : list File) (env : UploadEnv)
    (st : state) :
  contains "." ext = false ->
  String.length (uuid env) = 36%nat ->
  let file := {| name := stem ++ "." ++ ext; content := body |} in
  let path := "backgrounds/" ++ uuid env ++ "." ++ ext in
  let h := handleImageUpload (Some (file :: rest)) env in
  String.length path = (49 + String.length ext)%nat /\
  In (StorageUpload "images" path file "3600" false) (trace h st) /\
  (forall e, In e (trace h st) -> is_request e = true ->
             storage_target e = Some ("images", path)) /\
  count is_upsert (trace h st) = 0%nat /\
  (forall r, uploaded env = Resolved r -> error r = None ->
     truthy (publicUrl (publicUrlData env)) = true ->
     backgroundImageUrl (values (state_after h st)) =
       publicUrl (publicUrlData env) /\
     currentImageUrl (state_after h st) = publicUrl (publicUrlData env)).
Proof.
  intros Hext Hlen file path h.
  assert (Hp : filePath env file = path) by now apply filePath_extension.
  split; [|split; [|split; [|split]]].
  - unfold path. rewrite !length_append, Hlen. simpl. lia.
  - rewrite <- Hp. apply upload_begins.
  - rewrite <- Hp. apply upload_requests.
  - apply upload_never_upserts.
  - intros r Hu He Ht. unfold h, state_after.
    rewrite handleImageUpload_run. cbv zeta. rewrite Hu, He, Ht.
    split; reflexivity.
Qed.

Lemma upload_targets_backgrounds_path_witness :
  In (StorageUpload "images"
        "backgrounds/123e4567-e89b-42d3-a456-426614174000.png"
        photo "3600" false)
     (trace (handleImageUpload (Some [photo]) upload_ok) initial).
Proof.
  apply (upload_targets_backgrounds_path "photo" "png" "" [] upload_ok initial);
    reflexivity.
Defined.

Example upload_photo_png :
  handleImageUpload (Some [photo]) upload_ok initial =
  (inr tt,
   uploaded_state (publicUrl (publicUrlData upload_ok)) initial,
   [ToastLoading "Mengunggah gambar latar belakang...";
    StorageUpload "images"
      "backgrounds/123e4567-e89b-42d3-a456-426614174000.png" photo "3600" false;
    GetPublicUrl "images"
      "backgrounds/123e4567-e89b-42d3-a456-426614174000.png";
    ToastSuccess "Gambar latar belakang berhasil diunggah!"
      (Some (Num (of_Z 1)))]).
Proof. reflexivity. Qed.

Example extension_of_archive :
  fileExtension {| name := "site.backup.tar.gz"; content := "" |} = Some "gz".
Proof. reflexivity. Qed.

(** C7. When the storage upload succeeds but no public URL comes back,
    the upload counts as failed: the error is logged and one error
    notification, carrying the message of the error raised and the
    identifier of the notification shown while uploading, is the only
    notification after that one; the image field of the form and the preview
    keep their values. *)
Theorem upload_without_public_url_fails
    (file : File) (rest : list File) (env : UploadEnv) (st : state)
    (r : Response string) :
  uploaded env = Resolved r ->
  error r = None ->
  truthy (publicUrl (publicUrlData env)) = false ->
  let h := handleImageUpload (Some (file :: rest)) env in
  let raised := new_Error "Gagal mendapatkan URL publik gambar." in
  trace h st =
    [ToastLoading "Mengunggah gambar latar belakang...";
     StorageUpload "images" (filePath env file) file "3600" false;
     GetPublicUrl "images" (filePath env file);
     ConsoleError "Error uploading image:" raised;
     ToastError "Gagal mengunggah gambar: Gagal mendapatkan URL publik gambar."
       (Some (uploadToastId env))] /\
  message raised = "Gagal mendapatkan URL publik gambar." /\
  state_after h st = st /\
  backgroundImageUrl (values (state_after h st)) =
    backgroundImageUrl (values st) /\
  currentImageUrl (state_after h st) = currentImageUrl st /\
  outcome h st = inr tt.
Proof.
  intros Hu He Ht h raised.
  unfold h, trace, state_after, outcome. rewrite handleImageUpload_run.
  cbv zeta. rewrite Hu, He, Ht. repeat split; reflexivity.
Qed.

Lemma upload_without_public_url_fails_witness :
  state_after (handleImageUpload (Some [photo]) upload_no_url) initial = initial.
Proof.
  apply (upload_without_public_url_fails photo [] upload_no_url initial stored);
    reflexivity.
Defined.

(** C10. A file name without a dot is its own extension, so the upload
    goes to [backgrounds/<uuid>.<name>]; and with no file selected the
    handler ends at once: no event, no change of state. *)
Theorem upload_name_without_dot
    (nm body : string) (rest : list File) (env : UploadEnv) (st : state) :
  contains "." nm = false ->
  let file := {| name := nm; content := body |} in
  let path := "backgrounds/" ++ uuid env ++ "." ++ nm in
  fileExtension file = Some nm /\
  filePath env file = path /\
  In (StorageUpload "images" path file "3600" false)
     (trace (handleImageUpload (Some (file :: rest)) env) st) /\
  handleImageUpload None env st = (inr tt, st, []) /\
  handleImageUpload (Some []) env st = (inr tt, st, []).
Proof.
  intros H file path.
  assert (Hp : filePath env file = path) by now apply filePath_no_dot.
  repeat split.
  - unfold fileExtension. cbn [name file]. now apply split_whole.
  - exact Hp.
  - rewrite <- Hp. apply upload_begins.
Qed.

Lemma upload_name_without_dot_witness :
  filePath upload_ok {| name := "README"; content := "" |} =
  "backgrounds/123e4567-e89b-42d3-a456-426614174000.README".
Proof.
  apply (upload_name_without_dot "README" "" [] upload_ok initial).
  reflexivity.
Defined.

End UploadProperties.

(** ** Settings saver and validation: properties *)

Module SubmitProperties.
Import JS Zod Backend DisplaySettings Samples JSFacts Runs.

Lemma onSubmit_answer_no_upsert (resp : Response value) (e : event) :
  In e (onSubmit_answer resp) -> is_request e = false.
Proof.
  unfold onSubmit_answer. destruct (error resp); cbn [In];
    intros [<-|[<-|[]]]; reflexivity.
Qed.

Lemma onSubmit_trace (resp : Response value) (vs : DisplaySettingsFormValues)
    (st : state) :
  trace (onSubmit resp vs) st = onSubmit_request vs :: onSubmit_answer resp.
Proof. reflexivity. Qed.

Lemma count_answer (p : event -> bool) (resp : Response value) :
  (forall e, is_request e = false -> p e = false) ->
  count p (onSubmit_answer resp) = 0%nat.
Proof.
  intros Hp. unfold count, onSubmit_answer.
  destruct (error resp); cbn [filter]; rewrite !Hp by reflexivity; reflexivity.
Qed.

(** C2. When the image URL given to the saver is the empty string, or any
    other falsy value, the row handed to the upsert carries null for
    [background_image_url]; the same holds for every upsert a submission of
    the form makes. *)
Theorem falsy_image_url_is_saved_as_null
    (vs : DisplaySettingsFormValues) (resp : Response value) (st : state) :
  truthy (backgroundImageUrl vs) = false ->
  trace (onSubmit resp vs) st =
    Upsert "app_settings"
      {| id := 1;
         columns :=
           {| background_image_url := Null;
              background_color := backgroundColor vs;
              screensaver_idle_minutes := screensaverIdleMinutes vs |} |}
      "id" :: onSubmit_answer resp /\
  (values st = vs ->
   forall t row c, In (Upsert t row c) (trace (submit resp) st) ->
     background_image_url (columns row) = Null /\
     background_image_url (columns row) <> Str "").
Proof.
  intros Hf. split.
  - rewrite onSubmit_trace. unfold onSubmit_request.
    now rewrite (falsy_or _ _ Hf).
  - intros Hv t row c. unfold trace. rewrite submit_run.
    destruct (formSchema (values st)) as [parsed|es] eqn:E; cbn [snd In];
      [|contradiction].
    intros [H|H].
    + injection H as _ <- _. cbn [columns background_image_url].
      rewrite (formSchema_keeps_url _ _ E), Hv, (falsy_or _ _ Hf).
      split; [reflexivity | discriminate].
    + apply onSubmit_answer_no_upsert in H. discriminate.
Qed.

Lemma falsy_image_url_is_saved_as_null_witness :
  trace (onSubmit saved_ok
           {| backgroundImageUrl := Str "";
              backgroundColor := Str "#FF0000";
              screensaverIdleMinutes := Num (of_Z 10) |}) initial =
  [Upsert "app_settings"
     {| id := 1;
        columns :=
          {| background_image_url := Null;
             background_color := Str "#FF0000";
             screensaver_idle_minutes := Num (of_Z 10) |} |}
     "id";
   ToastSuccess "Pengaturan tampilan berhasil disimpan!" None;
   ConsoleLog "Display settings saved:" None].
Proof.
  apply (falsy_image_url_is_saved_as_null
           {| backgroundImageUrl := Str "";
              backgroundColor := Str "#FF0000";
              screensaverIdleMinutes := Num (of_Z 10) |} saved_ok initial).
  reflexivity.
Defined.

(** C3. A submission is blocked by validation, and nothing is sent to the
    backend, when the idle minutes are zero, negative or not a number
    (a value that is present and that [Number] turns into 0, into a
    number below 0, or into NaN), or when the colour is the empty
    string.  The handler then makes no call at all, records an issue for the
    field, and the form is no longer submitting. *)
Theorem invalid_submission_is_blocked (st : state) (resp : Response value) :
  (screensaverIdleMinutes (values st) <> Undefined /\
   (isZero (ToNumber (screensaverIdleMinutes (values st))) = true \/
    lt (ToNumber (screensaverIdleMinutes (values st))) (S754_zero false) = true \/
    isNaN (ToNumber (screensaverIdleMinutes (values st))) = true)) \/
  backgroundColor (values st) = Str "" ->
  (exists es, formSchema (values st) = inr es /\ es <> no_errors /\
              errors (state_after (submit resp) st) = es) /\
  trace (submit resp) st = [] /\
  count is_upsert (trace (submit resp) st) = 0%nat /\
  count is_request (trace (submit resp) st) = 0%nat /\
  isSubmitting (state_after (submit resp) st) = false.
Proof.
  intros H.
  assert (B : exists es, formSchema (values st) = inr es /\ es <> no_errors).
  { destruct H as [[Hv H]|H].
    - destruct (screensaverIdleMinutes_schema_blocks _ Hv H) as (i & l & E).
      destruct (formSchema_blocked_by_minutes _ _ _ E) as (es & E1 & E2).
      exists es. split; [exact E1|]. intros ->. discriminate.
    - assert (E : backgroundColor_schema (backgroundColor (values st)) =
                  inr [too_small "Warna latar belakang tidak boleh kosong."])
        by now rewrite H.
      destruct (formSchema_blocked_by_color _ _ _ E) as (es & E1 & E2).
      exists es. split; [exact E1|]. intros ->. discriminate. }
  destruct B as (es & E & Hes).
  unfold trace, state_after. rewrite submit_run, E. cbn [fst snd].
  repeat split; try reflexivity.
  exists es. repeat split; assumption.
Qed.

Lemma invalid_submission_is_blocked_witness :
  trace (submit saved_ok) (form_with Null "#0A0A0A" "0") = [].
Proof.
  apply (invalid_submission_is_blocked (form_with Null "#0A0A0A" "0") saved_ok).
  left. split; [discriminate | left; reflexivity].
Defined.

Example blocked_when_negative :
  submit saved_ok (form_with Null "#0A0A0A" "-3") =
  (inr tt,
   with_errors
     {| backgroundImageUrl_issues := [];
        backgroundColor_issues := [];
        screensaverIdleMinutes_issues :=
          [too_small "Durasi screensaver harus minimal 1 menit."] |}
     (form_with Null "#0A0A0A" "-3"),
   []).
Proof. reflexivity. Qed.

Example blocked_when_not_a_number :
  submit saved_ok (form_with Null "#0A0A0A" "abc") =
  (inr tt,
   with_errors
     {| backgroundImageUrl_issues := [];
        backgroundColor_issues := [];
        screensaverIdleMinutes_issues := [invalid_type] |}
     (form_with Null "#0A0A0A" "abc"),
   []).
Proof. reflexivity. Qed.

(** Absent minutes are not refused: the schema puts its default in. *)
Example absent_minutes_take_default :
  formSchema
    {| backgroundImageUrl := Null;
       backgroundColor := Str "black";
       screensaverIdleMinutes := Undefined |} =
  inl {| backgroundImageUrl := Null;
         backgroundColor := Str "black";
         screensaverIdleMinutes := Num (of_Z 5) |}.
Proof. reflexivity. Qed.

Example blocked_when_colour_empty :
  submit saved_ok (form_with Null "" "5") =
  (inr tt,
   with_errors
     {| backgroundImageUrl_issues := [];
        backgroundColor_issues :=
          [too_small "Warna latar belakang tidak boleh kosong."];
        screensaverIdleMinutes_issues := [] |}
     (form_with Null "" "5"),
   []).
Proof. reflexivity. Qed.

(** C4. A submission whose colour is a non-empty string and whose idle
    minutes are an integer at least 1 (the image URL being a string, null
    or absent, as its type has it) makes exactly one backend call: the
    upsert into [app_settings] of the row with id 1, conflict target [id];
    and when the backend reports no error exactly one notification
    follows, the success one. *)
Theorem valid_submission_upserts_once
    (st : state) (resp : Response value) (c : string) :
  well_typed_url (backgroundImageUrl (values st)) ->
  backgroundColor (values st) = Str c ->
  c <> "" ->
  isInteger (ToNumber (screensaverIdleMinutes (values st))) = true ->
  le (of_Z 1) (ToNumber (screensaverIdleMinutes (values st))) = true ->
  let sent :=
    Upsert "app_settings"
      {| id := 1;
         columns :=
           {| background_image_url := or (backgroundImageUrl (values st)) Null;
              background_color := Str c;
              screensaver_idle_minutes :=
                Num (ToNumber (screensaverIdleMinutes (values st))) |} |}
      "id" in
  trace (submit resp) st = sent :: onSubmit_answer resp /\
  count is_upsert (trace (submit resp) st) = 1%nat /\
  count is_request (trace (submit resp) st) = 1%nat /\
  (error resp = None ->
   count is_toast_success (trace (submit resp) st) = 1%nat /\
   count is_toast (trace (submit resp) st) = 1%nat).
Proof.
  intros Hu Hc Hne Hi Hle sent.
  assert (E : formSchema (values st) =
              inl {| backgroundImageUrl := backgroundImageUrl (values st);
                     backgroundColor := Str c;
                     screensaverIdleMinutes :=
                       Num (ToNumber (screensaverIdleMinutes (values st))) |}).
  { unfold formSchema.
    rewrite (backgroundImageUrl_schema_ok _ Hu), Hc,
      (backgroundColor_schema_ok _ Hne),
      (screensaverIdleMinutes_schema_ok _ Hi Hle).
    reflexivity. }
  unfold trace. rewrite submit_run, E. cbn [snd].
  change (onSubmit_request _) with sent.
  repeat split.
  - unfold count. cbn [filter is_upsert sent List.length]. f_equal.
    apply (count_answer is_upsert). now intros [].
  - unfold count. cbn [filter is_request sent List.length]. f_equal.
    apply (count_answer is_request). now intros [].
  - unfold count, onSubmit_answer. now rewrite H.
  - unfold count, onSubmit_answer. now rewrite H.
Qed.

Lemma valid_submission_upserts_once_witness :
  trace (submit saved_ok) (form_with Null "#FF0000" "10") =
  [Upsert "app_settings"
     {| id := 1;
        columns :=
          {| background_image_url := Null;
             background_color := Str "#FF0000";
             screensaver_idle_minutes := Num (of_Z 10) |} |}
     "id";
   ToastSuccess "Pengaturan tampilan berhasil disimpan!" None;
   ConsoleLog "Display settings saved:" None].
Proof.
  apply (valid_submission_upserts_once
           (form_with Null "#FF0000" "10") saved_ok "#FF0000");
    [exact I | reflexivity | discriminate | reflexivity | reflexivity].
Defined.

End SubmitProperties.

(** ** Settings loader: properties *)

Module LoadProperties.
Import JS Zod Backend DisplaySettings Samples JSFacts Runs.

(** C5. When the load on mount is answered with the not-found code
    [PGRST116] and no row, the form stays at its built-in defaults (null,
    "#0A0A0A", 5), the preview stays empty, and nothing is notified or
    logged: the read is the only event. *)
Theorem load_not_found_keeps_defaults
    (resp : Response AppSettings) (e : Error) :
  error resp = Some e ->
  code e = Str "PGRST116" ->
  data resp = None ->
  fst (mount resp) = initial /\
  values (fst (mount resp)) =
    {| backgroundImageUrl := Null;
       backgroundColor := Str "#0A0A0A";
       screensaverIdleMinutes := Num (of_Z 5) |} /\
  snd (mount resp) =
    [Select "app_settings"
       "background_image_url, background_color, screensaver_idle_minutes"
       "id" 1] /\
  count is_toast (snd (mount resp)) = 0%nat /\
  count is_console_error (snd (mount resp)) = 0%nat.
Proof.
  intros He Hc Hd. unfold mount, state_after, trace.
  rewrite fetchSettings_run. cbv zeta. rewrite He, Hc, Hd.
  repeat split; reflexivity.
Qed.

Lemma load_not_found_keeps_defaults_witness : fst (mount not_found) = initial.
Proof.
  apply (load_not_found_keeps_defaults not_found
           {| code := Str "PGRST116";
              message := "JSON object requested, multiple (or no) rows returned" |});
    reflexivity.
Defined.

(** C6. When the load on mount fails with an error whose code is not the
    not-found code, the error is logged once, exactly one notification is
    produced, an error one, and the form still holds its defaults. *)
Theorem load_failure_notifies_once
    (resp : Response AppSettings) (e : Error) :
  error resp = Some e ->
  code e <> Str "PGRST116" ->
  snd (mount resp) =
    [Select "app_settings"
       "background_image_url, background_color, screensaver_idle_minutes"
       "id" 1;
     ConsoleError "Error fetching display settings:" e;
     ToastError "Gagal memuat pengaturan tampilan." None] /\
  count is_toast_error (snd (mount resp)) = 1%nat /\
  count is_toast (snd (mount resp)) = 1%nat /\
  count is_console_error (snd (mount resp)) = 1%nat /\
  fst (mount resp) = initial /\
  values (fst (mount resp)) =
    {| backgroundImageUrl := Null;
       backgroundColor := Str "#0A0A0A";
       screensaverIdleMinutes := Num (of_Z 5) |}.
Proof.
  intros He Hc.
  assert (Hs : strict_eq (code e) (Str "PGRST116") = false).
  { destruct (strict_eq (code e) (Str "PGRST116")) eqn:E; [|reflexivity].
    now apply strict_eq_Str in E. }
  unfold mount, state_after, trace.
  rewrite fetchSettings_run. cbv zeta. rewrite He, Hs.
  repeat split; reflexivity.
Qed.

Lemma load_failure_notifies_once_witness :
  count is_toast_error (snd (mount unreachable)) = 1%nat.
Proof.
  apply (load_failure_notifies_once unreachable
           {| code := Str ""; message := "TypeError: Failed to fetch" |});
    [reflexivity | discriminate].
Defined.

(** C8. When the load succeeds with a row, the form is
    populated from it: the colour takes the row's colour, or "#0A0A0A" when
    that is null, absent or empty; the idle minutes take the row's minutes,
    or 5 when they are null or absent; the image URL has no fallback: the
    image field and the preview take the row's URL as it is, whatever it
    is. *)
Theorem load_copies_url_and_defaults_rest
    (resp : Response AppSettings) (d : AppSettings) (st : state) :
  error resp = None ->
  data resp = Some d ->
  let st' := state_after (fetchSettings resp) st in
  backgroundImageUrl (values st') = background_image_url d /\
  currentImageUrl st' = background_image_url d /\
  (truthy (background_color d) = true ->
   backgroundColor (values st') = background_color d) /\
  (background_color d = Null \/ background_color d = Undefined \/
   background_color d = Str "" ->
   backgroundColor (values st') = Str "#0A0A0A") /\
  (truthy (screensaver_idle_minutes d) = true ->
   screensaverIdleMinutes (values st') = screensaver_idle_minutes d) /\
  (screensaver_idle_minutes d = Null \/ screensaver_idle_minutes d = Undefined ->
   screensaverIdleMinutes (values st') = Num (of_Z 5)) /\
  trace (fetchSettings resp) st =
    [Select "app_settings"
       "background_image_url, background_color, screensaver_idle_minutes"
       "id" 1].
Proof.
  intros He Hd st'. unfold st', state_after, trace.
  rewrite fetchSettings_run. cbv zeta. rewrite He, Hd.
  cbn [fst snd values with_values backgroundImageUrl backgroundColor
       screensaverIdleMinutes currentImageUrl with_currentImageUrl].
  split; [reflexivity|]. split; [reflexivity|].
  split; [intros H; now apply truthy_or|].
  split; [intros [ -> | [ -> | -> ] ]; reflexivity|].
  split; [intros H; now apply truthy_or|].
  split; [intros [ -> | -> ]; reflexivity | reflexivity].
Qed.

Lemma load_copies_url_and_defaults_rest_witness :
  backgroundImageUrl
    (values (state_after (fetchSettings empty_url_row) initial)) = Str "" /\
  currentImageUrl (state_after (fetchSettings empty_url_row) initial) = Str "".
Proof.
  destruct (load_copies_url_and_defaults_rest empty_url_row
              {| background_image_url := Str "";
                 background_color := Str "#112233";
                 screensaver_idle_minutes := Num (of_Z 15) |}
              initial eq_refl eq_refl) as (Hf & Hp & _).
  split; [exact Hf | exact Hp].
Defined.

(** A row whose image URL is the empty string loads as the empty
    string, in the image field and in the preview: it is not turned into
    null. *)
Lemma load_keeps_empty_url :
  backgroundImageUrl
    (values (state_after (fetchSettings empty_url_row) initial)) = Str "" /\
  backgroundImageUrl
    (values (state_after (fetchSettings empty_url_row) initial)) <> Null /\
  currentImageUrl (state_after (fetchSettings empty_url_row) initial) <> Null.
Proof. repeat split; discriminate. Qed.

Example load_row :
  values
    (state_after
       (fetchSettings
          {| data :=
               Some {| background_image_url := Str "https://cdn.example/bg.jpg";
                       background_color := Str "";
                       screensaver_idle_minutes := Num (of_Z 15) |};
             error := None |})
       initial) =
  {| backgroundImageUrl := Str "https://cdn.example/bg.jpg";
     backgroundColor := Str "#0A0A0A";
     screensaverIdleMinutes := Num (of_Z 15) |}.
Proof. reflexivity. Qed.

End LoadProperties.

(** ** Submissions over time: properties *)

Module LifecycleProperties.
Import JS Zod Backend DisplaySettings Lifecycle Samples JSFacts Runs.



(** What the first part of a submission makes of the world. *)
Lemma begin_submission_run (w : world) :
  begin_submission w =
  match formSchema (values (component w)) with
  | inl parsed =>
      {| component :=
           with_errors no_errors (with_isSubmitting true (component w));
         isSubmitted := isSubmitted w;
         saving := (saving w ++ [parsed])%list;
         log := (log w ++ [onSubmit_request parsed])%list |}
  | inr es =>
      {| component :=
           with_isSubmitting false
             (with_errors es (with_isSubmitting true (component w)));
         isSubmitted := true;
         saving := saving w;
         log := log w |}
  end.
Proof.
  unfold begin_submission, within_step, outcome, state_after, trace.
  rewrite handleSubmit_begin_run.
  destruct (formSchema (values (component w))); cbn [fst snd component log];
    now rewrite app_nil_r.
Qed.

(** What the answer to the upsert makes of the world. *)
Lemma end_submission_run (resp : Response value)
    (rest : list DisplaySettingsFormValues) (w : world) :
  end_submission resp rest w =
  {| component := with_isSubmitting false (component w);
     isSubmitted := true;
     saving := rest;
     log := (log w ++ onSubmit_answer resp)%list |}.
Proof.
  unfold end_submission, state_after, trace, attempt, handleSubmit_end, bind,
    modify, emit_all, ret.
  cbn [fst snd]. now rewrite !app_nil_r.
Qed.

(** Typing changes the value of the field and, at most, its issues. *)
Lemma onChange_run (b : bool) (f : field) (v : value) (st : state) :
  onChange b f v st =
  (inr tt,
   (if b
    then with_errors
           (set_issues f
              (get_issues f (resolver_errors (set_field f v (values st))))
              (errors st))
           (with_values (set_field f v (values st)) st)
    else with_values (set_field f v (values st)) st),
   []).
Proof. destruct b; reflexivity. Qed.




(** The two parts of a submission, put together, are the handler run
    from its start to its end. *)
Lemma submit_in_two_steps (w : world) (resp : Response value) :
  saving w = [] ->
  match formSchema (values (component w)) with
  | inl _ =>
      run w [Submitted; Saved resp] =
      Some {| component := state_after (submit resp) (component w);
              isSubmitted := true;
              saving := [];
              log := (log w ++ trace (submit resp) (component w))%list |}
  | inr _ =>
      step w Submitted =
      Some {| component := state_after (submit resp) (component w);
              isSubmitted := true;
              saving := [];
              log := log w |}
  end.
Proof.
  intros Hn. unfold state_after, trace. rewrite submit_run.
  cbn [run step]. rewrite begin_submission_run.
  destruct (formSchema (values (component w))) as [parsed|es];
    cbn [saving component log fst snd]; rewrite Hn; cbn [app];
    [rewrite end_submission_run; cbn [saving component log];
     rewrite <- app_assoc|]; reflexivity.
Qed.




Example second_click_does_nothing :
  run start [Clicked; Clicked] = run start [Clicked].
Proof. reflexivity. Qed.

Example save_then_save_again :
  option_map (fun w => List.length (saving w))
    (run start [Clicked; Saved saved_ok; Clicked]) = Some 1%nat.
Proof. reflexivity. Qed.

(** After a refused submission, typing a valid value takes the issue of
    the field away without a new submission. *)
Example typing_validates_again :
  option_map (fun w => errors (component w))
    (run start
       [Typed f_screensaverIdleMinutes (Str "0"); Clicked;
        Typed f_screensaverIdleMinutes (Str "7")]) = Some no_errors.
Proof. reflexivity. Qed.

End LifecycleProperties.

(** ** The schema: what it accepts and what it returns *)

Module SchemaProperties.
Import JS Zod Backend DisplaySettings Samples JSFacts Runs.

(** A Number that is not NaN and not below one is at least one. *)
Lemma not_lt_one_le (x : number) :
  isNaN x = false -> lt x (of_Z 1) = false -> le (of_Z 1) x = true.
Proof.
  unfold lt, le, SFltb, SFleb. intros Hn Hlt.
  destruct (SFcompare x (of_Z 1)) as [c|] eqn:E.
  - rewrite (SFcompare_antisym _ _ _ E).
    destruct c; [reflexivity | discriminate | reflexivity].
  - rewrite of_Z_1 in E. destruct x as [s|s| |s m e]; discriminate.
Qed.

Lemma minutes_schema_present (v : value) :
  v <> Undefined ->
  screensaverIdleMinutes_schema v =
  z_coerce_number
    [z_int; z_min (of_Z 1) "Durasi screensaver harus minimal 1 menit."] v.
Proof. destruct v; [congruence | reflexivity ..]. Qed.

(** What the coerced-number schema answers, by the three tests it makes. *)
Lemma coerce_number_cases (v : value) :
  let x := ToNumber v in
  z_coerce_number
    [z_int; z_min (of_Z 1) "Durasi screensaver harus minimal 1 menit."] v =
  if isNaN x then inr [invalid_type]
  else if isInteger x then
         if lt x (of_Z 1)
         then inr [too_small "Durasi screensaver harus minimal 1 menit."]
         else inl (Num x)
       else if lt x (of_Z 1)
            then inr [not_integer;
                      too_small "Durasi screensaver harus minimal 1 menit."]
            else inr [not_integer].
Proof.
  intros x. unfold z_coerce_number, checked, run_checks, z_int, z_min.
  fold x. destruct (isNaN x); [reflexivity|]. cbn [flat_map app].
  destruct (isInteger x), (lt x (of_Z 1)); reflexivity.
Qed.

Lemma minutes_schema_inl (v p : value) :
  screensaverIdleMinutes_schema v = inl p ->
  acceptable_minutes v /\
  p = Num (if strict_eq v Undefined then of_Z 5 else ToNumber v).
Proof.
  destruct (strict_eq v Undefined) eqn:U.
  - destruct v; try discriminate U. intros [= <-].
    split; [now left | reflexivity].
  - assert (Hv : v <> Undefined) by (intros ->; discriminate).
    rewrite (minutes_schema_present _ Hv), coerce_number_cases. cbv zeta.
    destruct (isNaN (ToNumber v)) eqn:Hn; [discriminate|].
    destruct (isInteger (ToNumber v)) eqn:Hi,
             (lt (ToNumber v) (of_Z 1)) eqn:Hl; try discriminate.
    intros [= <-]. split; [right; auto | reflexivity].
Qed.

Lemma minutes_schema_accepts (v : value) :
  acceptable_minutes v -> exists p, screensaverIdleMinutes_schema v = inl p.
Proof.
  intros [->|(Hn & Hi & Hl)].
  - now eexists.
  - assert (Hv : v <> Undefined) by (intros ->; discriminate).
    rewrite (minutes_schema_present _ Hv), coerce_number_cases. cbv zeta.
    rewrite Hn, Hi, Hl. now eexists.
Qed.

Lemma color_schema_inl (v p : value) :
  backgroundColor_schema v = inl p ->
  acceptable_color v /\
  exists c, p = Str c /\ c <> "" /\ (v = Undefined \/ v = Str c).
Proof.
  destruct v as [| | b | x | s]; try discriminate.
  - intros [= <-]. split; [now left|].
    exists "#0A0A0A". repeat split; [discriminate | now left].
  - destruct s as [|a s]; [discriminate|]. intros [= <-].
    split; [right|]; exists (String a s); repeat split;
      try discriminate. now right.
Qed.

Lemma color_schema_accepts (v : value) :
  acceptable_color v -> exists p, backgroundColor_schema v = inl p.
Proof.
  intros [->|(c & -> & Hc)]; [now eexists|].
  destruct c; [congruence | now eexists].
Qed.

Lemma url_schema_inl (v p : value) :
  backgroundImageUrl_schema v = inl p -> well_typed_url v /\ p = v.
Proof. destruct v; try discriminate; intros [= <-]; split; easy. Qed.

Lemma schema_accepts_iff (raw : DisplaySettingsFormValues) :
  (exists parsed, formSchema raw = inl parsed) <->
  well_typed_url (backgroundImageUrl raw) /\
  acceptable_color (backgroundColor raw) /\
  acceptable_minutes (screensaverIdleMinutes raw).
Proof.
  unfold formSchema. split.
  - intros [parsed H].
    destruct (backgroundImageUrl_schema _) as [u|] eqn:Eu; [|discriminate].
    destruct (backgroundColor_schema _) as [c|] eqn:Ec; [|discriminate].
    destruct (screensaverIdleMinutes_schema _) as [m|] eqn:Em; [|discriminate].
    repeat split.
    + now apply url_schema_inl in Eu.
    + now apply color_schema_inl in Ec.
    + now apply minutes_schema_inl in Em.
  - intros (Hu & Hc & Hm).
    rewrite (backgroundImageUrl_schema_ok _ Hu).
    destruct (color_schema_accepts _ Hc) as [c ->].
    destruct (minutes_schema_accepts _ Hm) as [m ->].
    now eexists.
Qed.

Lemma schema_parsed (raw parsed : DisplaySettingsFormValues) :
  formSchema raw = inl parsed ->
  well_typed_url (backgroundImageUrl parsed) /\
  backgroundImageUrl parsed = backgroundImageUrl raw /\
  (exists c, backgroundColor parsed = Str c /\ c <> "" /\
             (backgroundColor raw = Str c \/
              backgroundColor raw = Undefined /\ c = "#0A0A0A")) /\
  (exists x, screensaverIdleMinutes parsed = Num x /\
             isInteger x = true /\ le (of_Z 1) x = true /\
             (x = ToNumber (screensaverIdleMinutes raw) \/
              screensaverIdleMinutes raw = Undefined /\ x = of_Z 5)).
Proof.
  unfold formSchema.
  destruct (backgroundImageUrl_schema _) as [u|] eqn:Eu; [|discriminate].
  destruct (backgroundColor_schema _) as [c|] eqn:Ec; [|discriminate].
  destruct (screensaverIdleMinutes_schema _) as [m|] eqn:Em; [|discriminate].
  intros [= <-]. cbn [backgroundImageUrl backgroundColor screensaverIdleMinutes].
  apply url_schema_inl in Eu as [Hu ->].
  split; [exact Hu|]. split; [reflexivity|]. split.
  - destruct (backgroundColor raw) as [| | b | x | s] eqn:R; try discriminate.
    + injection Ec as <-. exists "#0A0A0A".
      repeat split; [discriminate | now right].
    + destruct s as [|a s]; [discriminate|]. injection Ec as <-.
      exists (String a s). repeat split; [discriminate | now left].
  - destruct (minutes_schema_inl _ _ Em) as [Hacc ->].
    destruct (strict_eq (screensaverIdleMinutes raw) Undefined) eqn:U.
    + assert (R : screensaverIdleMinutes raw = Undefined)
        by (destruct (screensaverIdleMinutes raw); try discriminate U;
            reflexivity).
      exists (of_Z 5). split; [reflexivity|]. split; [reflexivity|].
      split; [reflexivity|]. right. now split.
    + destruct Hacc as [R|(Hn & Hi & Hl)]; [rewrite R in U; discriminate|].
      exists (ToNumber (screensaverIdleMinutes raw)).
      split; [reflexivity|]. split; [exact Hi|].
      split; [now apply not_lt_one_le | now left].
Qed.

(** X1. The schema accepts the raw values exactly when the image URL is a
    string, null or absent, the colour is absent or a non-empty string, and
    the minutes are absent or coerced to a whole Number not below 1. *)
Theorem formSchema_accepts_iff (raw : DisplaySettingsFormValues) :
  (exists parsed, formSchema raw = inl parsed) <->
  well_typed_url (backgroundImageUrl raw) /\
  acceptable_color (backgroundColor raw) /\
  acceptable_minutes (screensaverIdleMinutes raw).
Proof. exact (schema_accepts_iff raw). Qed.

(** X2. Whatever the schema returns is well formed, and it keeps what was
    entered: the image URL is the raw one, the colour is the raw string or
    the default for an absent one, the minutes are the Number the raw value
    is coerced to, or 5 for an absent one. *)
Theorem formSchema_parsed (raw parsed : DisplaySettingsFormValues) :
  formSchema raw = inl parsed ->
  well_typed_url (backgroundImageUrl parsed) /\
  backgroundImageUrl parsed = backgroundImageUrl raw /\
  (exists c, backgroundColor parsed = Str c /\ c <> "" /\
             (backgroundColor raw = Str c \/
              backgroundColor raw = Undefined /\ c = "#0A0A0A")) /\
  (exists x, screensaverIdleMinutes parsed = Num x /\
             isInteger x = true /\ le (of_Z 1) x = true /\
             (x = ToNumber (screensaverIdleMinutes raw) \/
              screensaverIdleMinutes raw = Undefined /\ x = of_Z 5)).
Proof. exact (schema_parsed raw parsed). Qed.

Lemma formSchema_parsed_witness :
  exists x,
    screensaverIdleMinutes
      {| backgroundImageUrl := Null;
         backgroundColor := Str "#FF0000";
         screensaverIdleMinutes := Num (of_Z 10) |} = Num x /\
    isInteger x = true /\ le (of_Z 1) x = true /\
    (x = ToNumber (Str " 10 ") \/ Str " 10 " = Undefined /\ x = of_Z 5).
Proof.
  apply (formSchema_parsed
           {| backgroundImageUrl := Null;
              backgroundColor := Str "#FF0000";
              screensaverIdleMinutes := Str " 10 " |}).
  reflexivity.
Defined.

(** X3. Validating what the schema returned changes nothing: the parsed
    values pass again and come back as they are. *)
Theorem formSchema_idempotent (raw parsed : DisplaySettingsFormValues) :
  formSchema raw = inl parsed -> formSchema parsed = inl parsed.
Proof.
  intros H.
  destruct (schema_parsed _ _ H)
    as (Hu & _ & (c & Hc & Hne & _) & (x & Hx & Hi & Hle & _)).
  destruct parsed as [u col m]. cbn in Hu, Hc, Hx. subst col m.
  unfold formSchema. cbn [backgroundImageUrl backgroundColor screensaverIdleMinutes].
  rewrite (backgroundImageUrl_schema_ok _ Hu), (backgroundColor_schema_ok _ Hne).
  rewrite (screensaverIdleMinutes_schema_ok (Num x) Hi Hle). reflexivity.
Qed.

Lemma formSchema_idempotent_witness :
  formSchema
    {| backgroundImageUrl := Null;
       backgroundColor := Str "#0A0A0A";
       screensaverIdleMinutes := Num (of_Z 12) |} =
  inl {| backgroundImageUrl := Null;
         backgroundColor := Str "#0A0A0A";
         screensaverIdleMinutes := Num (of_Z 12) |}.
Proof.
  apply (formSchema_idempotent
           {| backgroundImageUrl := Null;
              backgroundColor := Undefined;
              screensaverIdleMinutes := Str "1.2e1" |}).
  reflexivity.
Defined.

Lemma schema_issue_lists (r : value + list issue) :
  (exists v, r = inl v) \/ (exists i l, r = inr (i :: l)) ->
  issues r = [] <-> exists v, r = inl v.
Proof.
  intros [[v ->]|(i & l & ->)]; split; cbn; try discriminate; eauto.
  intros [v H]; discriminate.
Qed.

Lemma url_schema_shape (v : value) :
  (exists p, backgroundImageUrl_schema v = inl p) \/
  (exists i l, backgroundImageUrl_schema v = inr (i :: l)).
Proof. destruct v; cbn; eauto. Qed.

Lemma color_schema_shape (v : value) :
  (exists p, backgroundColor_schema v = inl p) \/
  (exists i l, backgroundColor_schema v = inr (i :: l)).
Proof.
  destruct v as [| | b | x | s]; cbn; eauto. destruct s; cbn; eauto.
Qed.

Lemma minutes_schema_shape (v : value) :
  (exists p, screensaverIdleMinutes_schema v = inl p) \/
  (exists i l, screensaverIdleMinutes_schema v = inr (i :: l)).
Proof.
  destruct (strict_eq v Undefined) eqn:U.
  - destruct v; try discriminate U. left. now eexists.
  - assert (Hv : v <> Undefined) by (intros ->; discriminate).
    rewrite (minutes_schema_present _ Hv), coerce_number_cases. cbv zeta.
    destruct (isNaN _); [eauto|].
    destruct (isInteger _), (lt _ _); eauto.
Qed.

(** X4. When the schema refuses the values, the issues it reports are, field
    by field, those of the field's own schema, whatever the other fields
    hold; and at least one field carries an issue. *)
Theorem formSchema_reports_each_field
    (raw : DisplaySettingsFormValues) (es : FieldErrors) :
  formSchema raw = inr es ->
  backgroundImageUrl_issues es =
    issues (backgroundImageUrl_schema (backgroundImageUrl raw)) /\
  backgroundColor_issues es =
    issues (backgroundColor_schema (backgroundColor raw)) /\
  screensaverIdleMinutes_issues es =
    issues (screensaverIdleMinutes_schema (screensaverIdleMinutes raw)) /\
  (backgroundImageUrl_issues es = [] <->
   well_typed_url (backgroundImageUrl raw)) /\
  (backgroundColor_issues es = [] <-> acceptable_color (backgroundColor raw)) /\
  (screensaverIdleMinutes_issues es = [] <->
   acceptable_minutes (screensaverIdleMinutes raw)) /\
  es <> no_errors.
Proof.
  intros H.
  assert (E : es =
    {| backgroundImageUrl_issues :=
         issues (backgroundImageUrl_schema (backgroundImageUrl raw));
       backgroundColor_issues :=
         issues (backgroundColor_schema (backgroundColor raw));
       screensaverIdleMinutes_issues :=
         issues (screensaverIdleMinutes_schema (screensaverIdleMinutes raw)) |}).
  { unfold formSchema in H.
    destruct (backgroundImageUrl_schema _), (backgroundColor_schema _),
      (screensaverIdleMinutes_schema _); try discriminate;
      now injection H as <-. }
  split; [now rewrite E|]. split; [now rewrite E|]. split; [now rewrite E|].
  assert (Iu : backgroundImageUrl_issues es = [] <->
               well_typed_url (backgroundImageUrl raw)).
  { rewrite E. cbn [backgroundImageUrl_issues].
    rewrite (schema_issue_lists _ (url_schema_shape _)). split.
    - intros [p Hp]. now apply url_schema_inl in Hp.
    - intros Hu. rewrite (backgroundImageUrl_schema_ok _ Hu). now eexists. }
  assert (Ic : backgroundColor_issues es = [] <->
               acceptable_color (backgroundColor raw)).
  { rewrite E. cbn [backgroundColor_issues].
    rewrite (schema_issue_lists _ (color_schema_shape _)). split.
    - intros [p Hp]. now apply color_schema_inl in Hp.
    - apply color_schema_accepts. }
  assert (Im : screensaverIdleMinutes_issues es = [] <->
               acceptable_minutes (screensaverIdleMinutes raw)).
  { rewrite E. cbn [screensaverIdleMinutes_issues].
    rewrite (schema_issue_lists _ (minutes_schema_shape _)). split.
    - intros [p Hp]. now apply minutes_schema_inl in Hp.
    - apply minutes_schema_accepts. }
  repeat split; try apply Iu; try apply Ic; try apply Im.
  intros ->.
  assert (A : exists parsed, formSchema raw = inl parsed).
  { apply schema_accepts_iff. repeat split;
      [apply Iu | apply Ic | apply Im]; reflexivity. }
  destruct A as [parsed A]. congruence.
Qed.

Lemma formSchema_reports_each_field_witness :
  backgroundColor_issues
    {| backgroundImageUrl_issues := [];
       backgroundColor_issues :=
         [too_small "Warna latar belakang tidak boleh kosong."];
       screensaverIdleMinutes_issues := [not_integer] |} =
  issues (backgroundColor_schema (Str "")).
Proof.
  apply (formSchema_reports_each_field
           {| backgroundImageUrl := Null;
              backgroundColor := Str "";
              screensaverIdleMinutes := Str "2.5" |}).
  reflexivity.
Defined.

End SchemaProperties.

(** ** The handlers: what they leave alone and how they compose *)

Module HandlerProperties.
Import JS Zod Backend DisplaySettings Samples JSFacts Runs SchemaProperties.

(** *** Image uploader *)

(** X9. The upload handler never throws, whatever the storage answers, and
    it touches nothing but the image field and the preview: colour,
    minutes, issues and the submitting mark are as before, and if field and
    preview agreed before they agree after. *)
Theorem upload_is_contained
    (files : option (list File)) (env : UploadEnv) (st : state) :
  let h := handleImageUpload files env in
  outcome h st = inr tt /\
  backgroundColor (values (state_after h st)) = backgroundColor (values st) /\
  screensaverIdleMinutes (values (state_after h st)) =
    screensaverIdleMinutes (values st) /\
  errors (state_after h st) = errors st /\
  isSubmitting (state_after h st) = isSubmitting st /\
  (in_sync st -> in_sync (state_after h st)).
Proof.
  intros h. unfold h, outcome, state_after, in_sync.
  destruct (first_file files) as [f|] eqn:E.
  - destruct files as [[|f' rest]|]; try discriminate.
    rewrite handleImageUpload_run. cbv zeta.
    destruct (uploaded env) as [r|err];
      [destruct (error r) as [err|];
         [|destruct (truthy (publicUrl (publicUrlData env)))]|];
      repeat split; auto.
  - rewrite (handleImageUpload_no_file _ _ _ E). repeat split; auto.
Qed.

Lemma upload_is_contained_witness :
  in_sync (state_after (handleImageUpload (Some [photo]) upload_ok) initial).
Proof.
  apply (upload_is_contained (Some [photo]) upload_ok initial). reflexivity.
Defined.

(** X10. When the storage refuses the file, by an error in its answer or by
    a rejected call, no public URL is asked for: the error is logged, one
    error notification with the message of the storage error replaces the
    loading one, and the state is untouched. *)
Theorem upload_storage_failure
    (file : File) (rest : list File) (env : UploadEnv) (st : state) (e : Error) :
  uploaded env = Rejected e \/
  (exists r, uploaded env = Resolved r /\ error r = Some e) ->
  let h := handleImageUpload (Some (file :: rest)) env in
  trace h st =
    [ToastLoading "Mengunggah gambar latar belakang...";
     StorageUpload "images" (filePath env file) file "3600" false;
     ConsoleError "Error uploading image:" e;
     ToastError ("Gagal mengunggah gambar: " ++ message e)
       (Some (uploadToastId env))] /\
  state_after h st = st /\
  outcome h st = inr tt.
Proof.
  intros H h. unfold h, trace, state_after, outcome.
  rewrite handleImageUpload_run. cbv zeta.
  destruct H as [->|(r & -> & ->)]; repeat split; reflexivity.
Qed.

Lemma upload_storage_failure_witness :
  state_after
    (handleImageUpload (Some [photo])
       {| uuid := "123e4567-e89b-42d3-a456-426614174000";
          uploadToastId := Num (of_Z 3);
          uploaded :=
            Resolved {| data := None;
                        error := Some (new_Error "The resource already exists") |};
          publicUrlData := None |})
    initial = initial.
Proof.
  apply (upload_storage_failure photo []
           {| uuid := "123e4567-e89b-42d3-a456-426614174000";
              uploadToastId := Num (of_Z 3);
              uploaded :=
                Resolved {| data := None;
                            error := Some (new_Error "The resource already exists") |};
              publicUrlData := None |}
           initial (new_Error "The resource already exists")).
  right. eexists. split; reflexivity.
Defined.

(** X11. Every upload of a selected file shows exactly two notifications:
    the loading one first and, as the last event, one that carries the
    identifier of the loading one.  That last one is the success
    notification exactly when the file was stored and a public URL came
    back, and then the form field and the rendered preview hold that URL;
    otherwise it is an error notification and the state is as before. *)
Theorem upload_notifies_twice
    (file : File) (rest : list File) (env : UploadEnv) (st : state) :
  let h := handleImageUpload (Some (file :: rest)) env in
  let url := publicUrl (publicUrlData env) in
  let stored_with_url :=
    (exists r, uploaded env = Resolved r /\ error r = None) /\
    truthy url = true in
  hd_error (trace h st) =
    Some (ToastLoading "Mengunggah gambar latar belakang...") /\
  count is_toast (trace h st) = 2%nat /\
  ((stored_with_url /\
    last (trace h st) (ToastLoading "") =
      ToastSuccess "Gambar latar belakang berhasil diunggah!"
        (Some (uploadToastId env)) /\
    backgroundImageUrl (values (state_after h st)) = url /\
    preview (state_after h st) = Some url)
   \/
   (~ stored_with_url /\
    (exists text,
       last (trace h st) (ToastLoading "") =
         ToastError text (Some (uploadToastId env))) /\
    count is_toast_success (trace h st) = 0%nat /\
    state_after h st = st)).
Proof.
  intros h url ok. unfold h, trace, state_after, ok, url.
  rewrite handleImageUpload_run. cbv zeta.
  destruct (uploaded env) as [r|err] eqn:U;
    [destruct (error r) as [err|] eqn:R;
       [|destruct (truthy (publicUrl (publicUrlData env))) eqn:T]|];
    (split; [reflexivity|]); (split; [reflexivity|]).
  - right. split.
    + intros [(r' & [= <-] & Hr) _]. congruence.
    + split; [eexists; reflexivity|]. split; reflexivity.
  - left. split; [split; [now exists r | reflexivity]|].
    split; [reflexivity|]. split; [reflexivity|].
    unfold preview. cbn [snd fst uploaded_state with_currentImageUrl currentImageUrl].
    now rewrite T.
  - right. split.
    + intros [_ Ht]. discriminate.
    + split; [eexists; reflexivity|]. split; reflexivity.
  - right. split.
    + intros [(r' & Hr & _) _]. discriminate.
    + split; [eexists; reflexivity|]. split; reflexivity.
Qed.

(** *** Settings saver *)

(** X6. A submission never throws and never changes what the form holds:
    the field values and the preview are as before, whether validation
    refused them, the backend failed or the save went through; and the form
    is not submitting at the end. *)
Theorem submit_keeps_form (resp : Response value) (st : state) :
  outcome (submit resp) st = inr tt /\
  values (state_after (submit resp) st) = values st /\
  currentImageUrl (state_after (submit resp) st) = currentImageUrl st /\
  isSubmitting (state_after (submit resp) st) = false.
Proof.
  unfold outcome, state_after. rewrite submit_run.
  destruct (formSchema (values st)); repeat split; reflexivity.
Qed.

(** X7. When the values are valid and the backend answers the upsert with
    an error, the error is logged, exactly one notification follows, an
    error one, and none of success; no issue is recorded against a
    field. *)
Theorem save_failure_is_reported
    (resp : Response value) (st : state) (e : Error)
    (parsed : DisplaySettingsFormValues) :
  formSchema (values st) = inl parsed ->
  error resp = Some e ->
  trace (submit resp) st =
    [onSubmit_request parsed;
     ConsoleError "Error saving display settings:" e;
     ToastError "Gagal menyimpan pengaturan tampilan." None] /\
  count is_toast (trace (submit resp) st) = 1%nat /\
  count is_toast_success (trace (submit resp) st) = 0%nat /\
  count is_upsert (trace (submit resp) st) = 1%nat /\
  errors (state_after (submit resp) st) = no_errors.
Proof.
  intros Hv He. unfold trace, state_after. rewrite submit_run, Hv.
  unfold onSubmit_answer. rewrite He. repeat split; reflexivity.
Qed.

Lemma save_failure_is_reported_witness :
  count is_toast_success
    (trace (submit {| data := None; error := Some (new_Error "permission denied") |})
       (form_with Null "#FF0000" "10")) = 0%nat.
Proof.
  apply (save_failure_is_reported
           {| data := None; error := Some (new_Error "permission denied") |}
           (form_with Null "#FF0000" "10")
           (new_Error "permission denied")
           {| backgroundImageUrl := Null;
              backgroundColor := Str "#FF0000";
              screensaverIdleMinutes := Num (of_Z 10) |});
    reflexivity.
Defined.

Lemma truthy_at_least_one (x : number) :
  le (of_Z 1) x = true -> truthy (Num x) = true.
Proof. rewrite of_Z_1. destruct x as [s|s| |s m e]; try discriminate; reflexivity. Qed.

Lemma or_null_url (u : value) :
  well_typed_url u ->
  or u Null = Null \/ exists s, or u Null = Str s /\ s <> "".
Proof.
  destruct u as [| | b | x | s]; try contradiction; intros _; auto.
  destruct s as [|a s]; [now left|]. right. exists (String a s).
  split; [reflexivity | discriminate].
Qed.

Lemma request_sendable (raw parsed : DisplaySettingsFormValues) :
  formSchema raw = inl parsed ->
  exists row,
    onSubmit_request parsed = Upsert "app_settings" row "id" /\
    id row = 1%Z /\ sendable (columns row).
Proof.
  intros E. eexists. split; [reflexivity|]. split; [reflexivity|].
  destruct (schema_parsed _ _ E)
    as (Hu & _ & (col & Hc & Hne & _) & (x & Hx & Hi & Hle & _)).
  unfold sendable. cbn [columns background_image_url background_color
                        screensaver_idle_minutes].
  split; [now apply or_null_url|]. split; eauto.
Qed.

Lemma answer_has_no_upsert (resp : Response value) (e : event) :
  In e (onSubmit_answer resp) -> is_upsert e = false.
Proof.
  unfold onSubmit_answer. destruct (error resp); cbn [In];
    intros [<-|[<-|[]]]; reflexivity.
Qed.

(** X5. Whatever the form holds, a row that a submission sends to the
    backend is well formed: it goes to [app_settings] with id 1 and
    conflict target [id], its image URL is null or a non-empty string, its
    colour a non-empty string, and its minutes a whole Number at least
    1. *)
Theorem every_upsert_is_sendable
    (resp : Response value) (st : state)
    (t : string) (row : UpsertRow) (c : string) :
  In (Upsert t row c) (trace (submit resp) st) ->
  t = "app_settings" /\ c = "id" /\ id row = 1%Z /\ sendable (columns row).
Proof.
  unfold trace. rewrite submit_run.
  destruct (formSchema (values st)) as [parsed|es] eqn:E; cbn [snd In];
    [|contradiction].
  intros [H|H].
  - destruct (request_sendable _ _ E) as (row' & R & Hid & Hs).
    rewrite R in H. injection H as <- <- <-. auto.
  - apply answer_has_no_upsert in H. discriminate.
Qed.

Lemma every_upsert_is_sendable_witness :
  sendable
    {| background_image_url := Null;
       background_color := Str "#FF0000";
       screensaver_idle_minutes := Num (of_Z 10) |}.
Proof.
  apply (every_upsert_is_sendable saved_ok (form_with (Str "") "#FF0000" "10")
           "app_settings"
           {| id := 1;
              columns :=
                {| background_image_url := Null;
                   background_color := Str "#FF0000";
                   screensaver_idle_minutes := Num (of_Z 10) |} |}
           "id").
  left. reflexivity.
Defined.

(** X8. Submitting again without touching the form sends the same request
    again, whatever the first submission was answered: a failed save can be
    retried as it is. *)
Theorem resubmission_repeats_request (first again : Response value) (st : state) :
  hd_error (trace (submit again) (state_after (submit first) st)) =
  hd_error (trace (submit first) st) /\
  count is_upsert (trace (submit again) (state_after (submit first) st)) =
  count is_upsert (trace (submit first) st).
Proof.
  unfold trace, state_after. rewrite !submit_run.
  destruct (formSchema (values st)) as [parsed|es] eqn:E;
    cbn [fst snd values with_isSubmitting with_errors]; rewrite E;
    cbn [snd hd_error]; split; try reflexivity.
  unfold count. cbn [filter is_upsert onSubmit_request List.length].
  f_equal. unfold onSubmit_answer.
  destruct (error again), (error first); reflexivity.
Qed.

(** *** Uploading, then saving *)

(** X14. After a successful upload with the public URL [u], a submission
    with an acceptable colour and acceptable minutes sends exactly one
    upsert, and its row carries [u] as image URL. *)
Theorem upload_then_submit_saves_url
    (file : File) (rest : list File) (env : UploadEnv)
    (resp : Response value) (st : state) (r : Response string) (u : string) :
  uploaded env = Resolved r ->
  error r = None ->
  publicUrlData env = Some (Str u) ->
  u <> "" ->
  acceptable_color (backgroundColor (values st)) ->
  acceptable_minutes (screensaverIdleMinutes (values st)) ->
  let st' := state_after (handleImageUpload (Some (file :: rest)) env) st in
  exists row,
    trace (submit resp) st' =
      Upsert "app_settings" row "id" :: onSubmit_answer resp /\
    id row = 1%Z /\
    background_image_url (columns row) = Str u /\
    sendable (columns row).
Proof.
  intros Hu He Hp Hne Hc Hm st'.
  assert (T : truthy (Str u) = true) by (destruct u; [congruence | reflexivity]).
  assert (S : st' = uploaded_state (Str u) st).
  { unfold st', state_after. rewrite handleImageUpload_run. cbv zeta.
    rewrite Hu, He, Hp. cbn [publicUrl]. now rewrite T. }
  assert (A : exists parsed, formSchema (values st') = inl parsed).
  { apply schema_accepts_iff. rewrite S.
    cbn [uploaded_state with_currentImageUrl with_values values set_field
         backgroundImageUrl backgroundColor screensaverIdleMinutes].
    repeat split; assumption. }
  destruct A as [parsed A].
  destruct (schema_parsed _ _ A)
    as (Hwu & Hku & (col & Hcol & Hcne & _) & (x & Hx & Hi & Hle & _)).
  exists {| id := 1;
            columns :=
              {| background_image_url := or (backgroundImageUrl parsed) Null;
                 background_color := backgroundColor parsed;
                 screensaver_idle_minutes := screensaverIdleMinutes parsed |} |}.
  assert (U : or (backgroundImageUrl parsed) Null = Str u).
  { rewrite Hku, S.
    cbn [uploaded_state with_currentImageUrl with_values values set_field
         backgroundImageUrl].
    now apply truthy_or. }
  split; [|split; [reflexivity|split]].
  - unfold trace. rewrite submit_run, A. reflexivity.
  - exact U.
  - unfold sendable. cbn [background_image_url background_color
                          screensaver_idle_minutes].
    split; [right; exists u; now split|]. split; eauto.
Qed.

Lemma upload_then_submit_saves_url_witness :
  exists row,
    trace (submit saved_ok)
      (state_after (handleImageUpload (Some [photo]) upload_ok)
         (form_with Null "#FF0000" "10")) =
      Upsert "app_settings" row "id" :: onSubmit_answer saved_ok /\
    id row = 1%Z /\
    background_image_url (columns row) =
      Str "https://cdn.example/storage/v1/object/public/images/backgrounds/123e4567-e89b-42d3-a456-426614174000.png" /\
    sendable (columns row).
Proof.
  apply (upload_then_submit_saves_url photo [] upload_ok saved_ok
           (form_with Null "#FF0000" "10") stored).
  - reflexivity.
  - reflexivity.
  - reflexivity.
  - discriminate.
  - right. exists "#FF0000". split; [reflexivity | discriminate].
  - right. repeat split; reflexivity.
Defined.

End HandlerProperties.

(** ** The loader: further properties *)

Module LoadMoreProperties.
Import JS Zod Backend DisplaySettings Samples JSFacts Runs SchemaProperties
  HandlerProperties.

(** The state after a load: as before, or populated from the row. *)
Lemma fetchSettings_states (resp : Response AppSettings) (st : state) :
  state_after (fetchSettings resp) st = st \/
  exists d,
    data resp = Some d /\
    state_after (fetchSettings resp) st =
      with_values
        {| backgroundImageUrl := background_image_url d;
           backgroundColor := or (background_color d) (Str "#0A0A0A");
           screensaverIdleMinutes :=
             or (screensaver_idle_minutes d) (Num (of_Z 5)) |}
        (with_currentImageUrl (background_image_url d) st).
Proof.
  unfold state_after. rewrite fetchSettings_run. cbv zeta.
  destruct (error resp) as [e|];
    [destruct (strict_eq (code e) (Str "PGRST116"))|];
    try (now left);
    (destruct (data resp) as [d|]; [right; now exists d | now left]).
Qed.

Lemma fetchSettings_in_sync (resp : Response AppSettings) (st : state) :
  in_sync st -> in_sync (state_after (fetchSettings resp) st).
Proof.
  intros H. destruct (fetchSettings_states resp st) as [->|(d & _ & ->)];
    [exact H | reflexivity].
Qed.

Lemma fetchSettings_no_upsert (resp : Response AppSettings) (st : state) :
  count is_upsert (trace (fetchSettings resp) st) = 0%nat.
Proof.
  unfold count, trace. rewrite fetchSettings_run. cbv zeta.
  destruct (error resp) as [e|];
    [destruct (strict_eq (code e) (Str "PGRST116"))|]; reflexivity.
Qed.

(** X15. The load only reads: whatever the backend answers, its one request
    is the read of the row with id 1 from [app_settings]; it never throws,
    leaves issues and the submitting mark alone, and the image field and
    the preview agree after it if they did before. *)
Theorem load_is_read_only (resp : Response AppSettings) (st : state) :
  filter is_request (trace (fetchSettings resp) st) =
    [Select "app_settings"
       "background_image_url, background_color, screensaver_idle_minutes"
       "id" 1] /\
  count is_upsert (trace (fetchSettings resp) st) = 0%nat /\
  outcome (fetchSettings resp) st = inr tt /\
  errors (state_after (fetchSettings resp) st) = errors st /\
  isSubmitting (state_after (fetchSettings resp) st) = isSubmitting st /\
  (in_sync st -> in_sync (state_after (fetchSettings resp) st)).
Proof.
  split.
  { unfold trace. rewrite fetchSettings_run. cbv zeta.
    destruct (error resp) as [e|];
      [destruct (strict_eq (code e) (Str "PGRST116"))|]; reflexivity. }
  split; [apply fetchSettings_no_upsert|].
  split.
  { unfold outcome. rewrite fetchSettings_run. cbv zeta.
    destruct (error resp) as [e|];
      [destruct (strict_eq (code e) (Str "PGRST116"))|]; reflexivity. }
  split; [|split; [|apply fetchSettings_in_sync]];
    destruct (fetchSettings_states resp st) as [->|(d & _ & ->)]; reflexivity.
Qed.

Lemma load_is_read_only_witness :
  in_sync (state_after (fetchSettings empty_row) initial).
Proof. apply (load_is_read_only empty_row initial). reflexivity. Defined.

Lemma truthy_or_default (a b : value) :
  truthy b = true -> truthy (or a b) = true.
Proof. intros H. unfold or. now destruct (truthy a) eqn:E. Qed.

(** X16. After a load that found a row, the colour and the minutes of the
    form are never falsy: any falsy colour of the row (null, absent, empty)
    shows as "#0A0A0A" and any falsy minutes (null, absent, 0, NaN) show as
    5, so a stored 0 is never displayed. *)
Theorem load_never_shows_falsy
    (resp : Response AppSettings) (d : AppSettings) (st : state) :
  error resp = None ->
  data resp = Some d ->
  let st' := state_after (fetchSettings resp) st in
  truthy (backgroundColor (values st')) = true /\
  truthy (screensaverIdleMinutes (values st')) = true /\
  (truthy (background_color d) = false ->
   backgroundColor (values st') = Str "#0A0A0A") /\
  (truthy (screensaver_idle_minutes d) = false ->
   screensaverIdleMinutes (values st') = Num (of_Z 5)).
Proof.
  intros He Hd st'. unfold st', state_after.
  rewrite fetchSettings_run. cbv zeta. rewrite He, Hd.
  cbn [fst snd values with_values backgroundColor screensaverIdleMinutes].
  split; [now apply truthy_or_default|].
  split; [now apply truthy_or_default|].
  split; intros H; now apply falsy_or.
Qed.

Lemma load_never_shows_falsy_witness :
  screensaverIdleMinutes
    (values
       (state_after
          (fetchSettings
             {| data :=
                  Some {| background_image_url := Null;
                          background_color := Str "navy";
                          screensaver_idle_minutes := Num (S754_zero false) |};
                error := None |})
          initial)) = Num (of_Z 5).
Proof.
  apply (load_never_shows_falsy
           {| data :=
                Some {| background_image_url := Null;
                        background_color := Str "navy";
                        screensaver_idle_minutes := Num (S754_zero false) |};
              error := None |}
           {| background_image_url := Null;
              background_color := Str "navy";
              screensaver_idle_minutes := Num (S754_zero false) |}
           initial);
    reflexivity.
Defined.

(** X17. Saving what was loaded writes the row back as it is: after a load
    that found a well-formed row, a submission without any edit sends
    exactly that row, with id 1. *)
Theorem load_then_submit_round_trip
    (loaded : Response AppSettings) (d : AppSettings)
    (resp : Response value) (st : state) :
  error loaded = None ->
  data loaded = Some d ->
  sendable d ->
  trace (submit resp) (state_after (fetchSettings loaded) st) =
  Upsert "app_settings" {| id := 1; columns := d |} "id"
    :: onSubmit_answer resp.
Proof.
  intros He Hd (Hu & (c & Hc & Hne) & (x & Hx & Hi & Hle)).
  unfold trace, state_after. rewrite submit_run, fetchSettings_run.
  cbv zeta. rewrite He, Hd. cbn [fst snd values with_values].
  destruct d as [u col m].
  cbn [background_image_url background_color screensaver_idle_minutes] in *.
  subst col m.
  assert (Tc : truthy (Str c) = true) by (destruct c; [congruence|reflexivity]).
  rewrite (truthy_or _ _ Tc), (truthy_or _ _ (truthy_at_least_one _ Hle)).
  assert (Wu : well_typed_url u) by (destruct Hu as [->|(s & -> & _)]; exact I).
  assert (E : formSchema
                {| backgroundImageUrl := u;
                   backgroundColor := Str c;
                   screensaverIdleMinutes := Num x |} =
              inl {| backgroundImageUrl := u;
                     backgroundColor := Str c;
                     screensaverIdleMinutes := Num x |}).
  { unfold formSchema.
    cbn [backgroundImageUrl backgroundColor screensaverIdleMinutes].
    rewrite (backgroundImageUrl_schema_ok _ Wu),
      (backgroundColor_schema_ok _ Hne),
      (screensaverIdleMinutes_schema_ok (Num x) Hi Hle).
    reflexivity. }
  rewrite E. cbn [snd]. unfold onSubmit_request.
  cbn [backgroundImageUrl backgroundColor screensaverIdleMinutes].
  assert (U : or u Null = u).
  { destruct Hu as [->|(s & -> & Hs)]; [reflexivity|].
    apply truthy_or. destruct s; [congruence | reflexivity]. }
  now rewrite U.
Qed.

Lemma load_then_submit_round_trip_witness :
  trace (submit saved_ok)
    (state_after
       (fetchSettings
          {| data :=
               Some {| background_image_url := Str "https://cdn.example/bg.jpg";
                       background_color := Str "#112233";
                       screensaver_idle_minutes := Num (of_Z 15) |};
             error := None |})
       initial) =
  Upsert "app_settings"
    {| id := 1;
       columns :=
         {| background_image_url := Str "https://cdn.example/bg.jpg";
            background_color := Str "#112233";
            screensaver_idle_minutes := Num (of_Z 15) |} |}
    "id" :: onSubmit_answer saved_ok.
Proof.
  apply (load_then_submit_round_trip
           {| data :=
                Some {| background_image_url := Str "https://cdn.example/bg.jpg";
                        background_color := Str "#112233";
                        screensaver_idle_minutes := Num (of_Z 15) |};
              error := None |}
           {| background_image_url := Str "https://cdn.example/bg.jpg";
              background_color := Str "#112233";
              screensaver_idle_minutes := Num (of_Z 15) |}
           saved_ok initial).
  - reflexivity.
  - reflexivity.
  - split; [right; eexists; split; [reflexivity | discriminate]|].
    split; [eexists; split; [reflexivity | discriminate]|].
    eexists; repeat split; reflexivity.
Defined.

End LoadMoreProperties.

(** ** The component over time: further properties *)

Module LifecycleMoreProperties.
Import JS Zod Backend DisplaySettings Lifecycle Samples JSFacts Runs
  LifecycleProperties SchemaProperties HandlerProperties LoadMoreProperties.

Lemma count_app (p : event -> bool) (l1 l2 : list event) :
  count p (l1 ++ l2) = (count p l1 + count p l2)%nat.
Proof. unfold count. now rewrite filter_app, length_app. Qed.

Lemma handleImageUpload_no_upsert (files : option (list File))
    (env : UploadEnv) (st : state) :
  count is_upsert (trace (handleImageUpload files env) st) = 0%nat.
Proof.
  destruct (first_file files) as [f|] eqn:E.
  - destruct files as [[|f' rest]|]; try discriminate.
    unfold trace. rewrite handleImageUpload_run. cbv zeta.
    destruct (uploaded env) as [r|err];
      [destruct (error r) as [err|];
         [|destruct (truthy (publicUrl (publicUrlData env)))]|];
      reflexivity.
  - unfold trace. now rewrite (handleImageUpload_no_file _ _ _ E).
Qed.

Lemma handleImageUpload_in_sync (files : option (list File))
    (env : UploadEnv) (st : state) :
  in_sync st -> in_sync (state_after (handleImageUpload files env) st).
Proof.
  intros H. unfold state_after. destruct (first_file files) as [f|] eqn:E.
  - destruct files as [[|f' rest]|]; try discriminate.
    rewrite handleImageUpload_run. cbv zeta.
    destruct (uploaded env) as [r|err];
      [destruct (error r) as [err|];
         [|destruct (truthy (publicUrl (publicUrlData env)))]|];
      try exact H. reflexivity.
  - now rewrite (handleImageUpload_no_file _ _ _ E).
Qed.

(** *** Every upsert is accounted for *)

Lemma step_accounts (w w' : world) (i : input) :
  step w i = Some w' ->
  (count is_upsert (log w') + List.length (saving w))%nat =
  (count is_upsert (log w) + (if is_saved i then 1 else 0)
   + List.length (saving w'))%nat.
Proof.
  assert (B : (count is_upsert (log (begin_submission w))
               + List.length (saving w))%nat =
              (count is_upsert (log w)
               + List.length (saving (begin_submission w)))%nat).
  { rewrite begin_submission_run.
    destruct (formSchema _) as [parsed|es]; cbn [log saving].
    - rewrite count_app, length_app. cbn. lia.
    - lia. }
  destruct i as [resp|f v|files env| | |resp]; cbn [step is_saved].
  - intros [= <-]. cbn [within_step log saving].
    rewrite count_app, fetchSettings_no_upsert. lia.
  - intros [= <-]. cbn [within_step log saving].
    unfold trace. rewrite onChange_run, count_app. cbn. lia.
  - intros [= <-]. cbn [within_step log saving].
    rewrite count_app, handleImageUpload_no_upsert. lia.
  - intros [= <-]. lia.
  - destruct (submit_disabled (component w)); intros [= <-]; lia.
  - destruct (saving w) as [|vs rest]; [discriminate|].
    intros [= <-]. rewrite end_submission_run.
    cbn [log saving List.length]. rewrite count_app.
    assert (Z : count is_upsert (onSubmit_answer resp) = 0%nat)
      by (unfold count, onSubmit_answer; destruct (error resp); reflexivity).
    rewrite Z. lia.
Qed.

Lemma run_accounts (ins : list input) :
  forall w w',
    run w ins = Some w' ->
    (count is_upsert (log w') + List.length (saving w))%nat =
    (count is_upsert (log w) + answered ins + List.length (saving w'))%nat.
Proof.
  induction ins as [|i ins IH]; cbn [run]; intros w w'.
  - intros [= <-]. cbn. lia.
  - destruct (step w i) as [w1|] eqn:E; [|discriminate]. intros R.
    specialize (IH _ _ R). apply step_accounts in E.
    unfold answered in *. cbn [filter].
    destruct (is_saved i); cbn [List.length]; lia.
Qed.

(** X21. In every state the component reaches, the upserts it has sent are
    those that were answered plus those still unanswered: no handler other
    than a submission writes the settings row, and no submission writes it
    twice. *)
Theorem upserts_are_accounted_for (ins : list input) (w : world) :
  run start ins = Some w ->
  count is_upsert (log w) = (answered ins + List.length (saving w))%nat.
Proof.
  intros H. apply run_accounts in H. cbn in H. lia.
Qed.

Lemma upserts_are_accounted_for_witness :
  match run start
          [Loaded not_found; Picked (Some [photo]) upload_ok; Submitted;
           Saved saved_ok; Typed f_backgroundColor (Str "#FF0000"); Submitted]
  with
  | Some w => count is_upsert (log w) = 2%nat
  | None => False
  end.
Proof.
  destruct (run start
              [Loaded not_found; Picked (Some [photo]) upload_ok; Submitted;
               Saved saved_ok; Typed f_backgroundColor (Str "#FF0000");
               Submitted]) as [w|] eqn:E.
  - rewrite (upserts_are_accounted_for _ w E).
    vm_compute in E. now injection E as <-.
  - vm_compute in E. discriminate.
Defined.

(** *** Only well-formed rows are sent *)

Lemma count_zero_In (p : event -> bool) (l : list event) (e : event) :
  count p l = 0%nat -> In e l -> p e = false.
Proof.
  unfold count. induction l as [|a l IH]; cbn [filter In]; [contradiction|].
  destruct (p a) eqn:Pa; [discriminate|].
  intros Z [<-|H]; [exact Pa | now apply IH].
Qed.

Lemma step_log_sendable (w w' : world) (i : input) :
  log_sendable w -> step w i = Some w' -> log_sendable w'.
Proof.
  intros Inv.
  assert (B : log_sendable (begin_submission w)).
  { rewrite begin_submission_run.
    destruct (formSchema _) as [parsed|es] eqn:E; [|exact Inv].
    intros t row c. cbn [log]. rewrite in_app_iff.
    intros [H|[H|[]]]; [now apply Inv|].
    destruct (request_sendable _ _ E) as (row' & R & Hid & Hs).
    rewrite R in H. injection H as <- <- <-. auto. }
  destruct i as [resp|f v|files env| | |resp]; cbn [step].
  - intros [= <-] t row c. cbn [within_step log]. rewrite in_app_iff.
    intros [H|H]; [now apply Inv|].
    apply (count_zero_In is_upsert) in H;
      [discriminate | apply fetchSettings_no_upsert].
  - intros [= <-] t row c. cbn [within_step log]. unfold trace.
    rewrite onChange_run. cbn [snd]. rewrite in_app_iff.
    intros [H|H]; [now apply Inv | contradiction].
  - intros [= <-] t row c. cbn [within_step log]. rewrite in_app_iff.
    intros [H|H]; [now apply Inv|].
    apply (count_zero_In is_upsert) in H;
      [discriminate | apply handleImageUpload_no_upsert].
  - intros [= <-]. exact B.
  - destruct (submit_disabled (component w)); intros [= <-];
      [exact Inv | exact B].
  - destruct (saving w) as [|vs rest]; [discriminate|].
    intros [= <-] t row c. rewrite end_submission_run. cbn [log].
    rewrite in_app_iff.
    intros [H|H]; [now apply Inv|].
    apply answer_has_no_upsert in H. discriminate.
Qed.

Lemma run_log_sendable (ins : list input) :
  forall w w', log_sendable w -> run w ins = Some w' -> log_sendable w'.
Proof.
  induction ins as [|i ins IH]; cbn [run]; intros w w' Inv.
  - now intros [= <-].
  - destruct (step w i) as [w1|] eqn:E; [|discriminate].
    apply IH. exact (step_log_sendable _ _ _ Inv E).
Qed.

(** X22. Whatever the user does and whatever the backend answers, in
    whatever order, every upsert the component has sent goes to
    [app_settings] with id 1 and conflict target [id], and its row has a
    null or non-empty image URL, a non-empty colour and whole minutes of at
    least 1. *)
Theorem only_sendable_rows_are_sent
    (ins : list input) (w : world) (t : string) (row : UpsertRow) (c : string) :
  run start ins = Some w ->
  In (Upsert t row c) (log w) ->
  t = "app_settings" /\ c = "id" /\ id row = 1%Z /\ sendable (columns row).
Proof.
  intros H. apply (run_log_sendable ins start w); [|exact H].
  intros t' row' c' [].
Qed.

Lemma only_sendable_rows_are_sent_witness :
  sendable
    {| background_image_url := Null;
       background_color := Str "#0A0A0A";
       screensaver_idle_minutes := Num (of_Z 30) |}.
Proof.
  apply (only_sendable_rows_are_sent
           [Typed f_screensaverIdleMinutes (Str "30"); Submitted]
           {| component :=
                with_isSubmitting true
                  (with_values
                     (set_field f_screensaverIdleMinutes (Str "30") defaultValues)
                     initial);
              isSubmitted := false;
              saving :=
                [{| backgroundImageUrl := Null;
                    backgroundColor := Str "#0A0A0A";
                    screensaverIdleMinutes := Num (of_Z 30) |}];
              log :=
                [Upsert "app_settings"
                   {| id := 1;
                      columns :=
                        {| background_image_url := Null;
                           background_color := Str "#0A0A0A";
                           screensaver_idle_minutes := Num (of_Z 30) |} |}
                   "id"] |}
           "app_settings"
           {| id := 1;
              columns :=
                {| background_image_url := Null;
                   background_color := Str "#0A0A0A";
                   screensaver_idle_minutes := Num (of_Z 30) |} |}
           "id").
  - reflexivity.
  - left. reflexivity.
Defined.

(** *** The preview shows what would be saved *)

Lemma step_in_sync (w w' : world) (i : input) :
  types_into_image_field i = false ->
  in_sync (component w) -> step w i = Some w' -> in_sync (component w').
Proof.
  intros Hi Inv.
  assert (B : in_sync (component (begin_submission w))).
  { rewrite begin_submission_run.
    destruct (formSchema _) as [parsed|es]; exact Inv. }
  destruct i as [resp|f v|files env| | |resp]; cbn [step].
  - intros [= <-]. cbn [within_step component]. now apply fetchSettings_in_sync.
  - intros [= <-]. cbn [within_step component]. unfold state_after.
    rewrite onChange_run. cbn [fst snd].
    destruct f; [discriminate Hi | ..]; destruct (isSubmitted w); exact Inv.
  - intros [= <-]. cbn [within_step component].
    now apply handleImageUpload_in_sync.
  - intros [= <-]. exact B.
  - destruct (submit_disabled (component w)); intros [= <-];
      [exact Inv | exact B].
  - destruct (saving w) as [|vs rest]; [discriminate|].
    intros [= <-]. rewrite end_submission_run. exact Inv.
Qed.

Lemma run_in_sync (ins : list input) :
  forallb (fun i => negb (types_into_image_field i)) ins = true ->
  forall w w',
    in_sync (component w) -> run w ins = Some w' -> in_sync (component w').
Proof.
  induction ins as [|i ins IH]; cbn [run forallb]; intros Hall w w' Inv.
  - now intros [= <-].
  - apply andb_prop in Hall as [Hi Hall].
    destruct (step w i) as [w1|] eqn:E; [|discriminate].
    apply (IH Hall). apply (step_in_sync _ _ _ (proj1 (negb_true_iff _) Hi) Inv E).
Qed.

(** X23. As long as the image field is written by the component only (it has
    no input of its own), the preview state and the image field of the form
    hold the same value in every state the component reaches: the preview
    shows the image a submission would save. *)
Theorem preview_follows_image_field (ins : list input) (w : world) :
  forallb (fun i => negb (types_into_image_field i)) ins = true ->
  run start ins = Some w ->
  currentImageUrl (component w) = backgroundImageUrl (values (component w)).
Proof.
  intros Hall H. apply (run_in_sync ins Hall start w); [reflexivity | exact H].
Qed.

Lemma preview_follows_image_field_witness :
  match run start [Loaded empty_row; Picked (Some [photo]) upload_ok] with
  | Some w =>
      currentImageUrl (component w) = backgroundImageUrl (values (component w))
  | None => False
  end.
Proof.
  destruct (run start [Loaded empty_row; Picked (Some [photo]) upload_ok])
    as [w|] eqn:E.
  - apply (preview_follows_image_field
             [Loaded empty_row; Picked (Some [photo]) upload_ok] w);
      [reflexivity | exact E].
  - vm_compute in E. discriminate.
Defined.

End LifecycleMoreProperties.

(** ** File names and typed numbers *)

Module InputProperties.
Import JS Zod Backend DisplaySettings Samples JSFacts Runs SchemaProperties.

(** Every string is either free of the separator or ends in a piece
    free of it that follows a separator. *)
Lemma last_piece (sep : ascii) (s : string) :
  contains sep s = false \/
  exists stem ext, s = stem ++ String sep ext /\ contains sep ext = false.
Proof.
  induction s as [|c s IH]; [now left|].
  destruct IH as [H|(stem & ext & -> & H)].
  - cbn [contains]. destruct (Ascii.eqb c sep) eqn:E.
    + right. apply Ascii.eqb_eq in E. subst c. now exists "", s.
    + now left.
  - right. now exists (String c stem), ext.
Qed.

(** X12. The extension derived from a file name is always defined, never
    contains a dot, and is the part of the name after its last dot, or the
    whole name when there is none; the storage path is
    [backgrounds/<uuid>.<extension>] in every case. *)
Theorem fileExtension_is_last_piece (file : File) (env : UploadEnv) :
  exists ext,
    fileExtension file = Some ext /\
    contains "." ext = false /\
    (name file = ext \/ exists stem, name file = stem ++ "." ++ ext) /\
    filePath env file = "backgrounds/" ++ uuid env ++ "." ++ ext.
Proof.
  unfold filePath, fileName, fileExtension.
  destruct (last_piece "." (name file)) as [H|(stem & ext & E & H)].
  - exists (name file). rewrite (split_whole _ _ H).
    repeat split; auto.
  - exists ext. rewrite E, (split_last _ _ _ H).
    repeat split; auto. right. now exists stem.
Qed.

Lemma concat_cons (sep x : string) (l : list string) :
  l <> [] -> String.concat sep (x :: l) = x ++ sep ++ String.concat sep l.
Proof. destruct l; [congruence | reflexivity]. Qed.

Lemma concat_split_from (sep : ascii) (s cur : string) :
  String.concat (String sep "") (split_from sep cur s) = cur ++ s.
Proof.
  revert cur. induction s as [|c s IH]; intros cur; cbn [split_from].
  - cbn. now rewrite append_empty_r.
  - destruct (Ascii.eqb c sep) eqn:E.
    + apply Ascii.eqb_eq in E. subst c.
      rewrite concat_cons by apply split_from_not_nil.
      now rewrite IH.
    + rewrite IH. apply append_snoc.
Qed.

(** X13. Splitting a string at a separator loses nothing: joining the pieces
    with the separator gives the string back, and there is always at least
    one piece. *)
Theorem split_then_join (sep : ascii) (s : string) :
  String.concat (String sep "") (split sep s) = s /\ split sep s <> [].
Proof.
  split; [apply (concat_split_from sep s "") | apply split_from_not_nil].
Qed.

Lemma trim_all_white (s : string) : all_white s = true -> trim s = "".
Proof.
  intros H. unfold trim.
  assert (E : trimStart s = "").
  { induction s as [|c s IH]; [reflexivity|]. cbn [all_white] in H.
    apply andb_prop in H as [Hc Hs]. cbn [trimStart]. rewrite Hc. now apply IH. }
  now rewrite E.
Qed.

(** X18. When the minutes field holds only white space, and so when it has
    been cleared, a submission is blocked: the text counts as the number 0,
    the issue recorded for the field is the "at least 1 minute" one, and
    nothing is sent. *)
Theorem blank_minutes_are_too_small
    (st : state) (resp : Response value) (s : string) :
  screensaverIdleMinutes (values st) = Str s ->
  all_white s = true ->
  trace (submit resp) st = [] /\
  screensaverIdleMinutes_issues (errors (state_after (submit resp) st)) =
    [too_small "Durasi screensaver harus minimal 1 menit."].
Proof.
  intros Hm Hw.
  assert (N : ToNumber (Str s) = S754_zero false).
  { cbn [ToNumber]. unfold StringToNumber. now rewrite (trim_all_white _ Hw). }
  assert (E : screensaverIdleMinutes_schema (Str s) =
              inr [too_small "Durasi screensaver harus minimal 1 menit."]).
  { rewrite minutes_schema_present by discriminate.
    rewrite coerce_number_cases. cbv zeta. rewrite N. reflexivity. }
  unfold trace, state_after. rewrite submit_run. unfold formSchema.
  rewrite Hm, E.
  destruct (backgroundImageUrl_schema _), (backgroundColor_schema _);
    split; reflexivity.
Qed.

Lemma blank_minutes_are_too_small_witness :
  trace (submit saved_ok) (form_with Null "#0A0A0A" "") = [].
Proof.
  apply (blank_minutes_are_too_small (form_with Null "#0A0A0A" "") saved_ok "");
    reflexivity.
Defined.

End InputProperties.

(** ** Whole numbers typed into the minutes field *)

Module TypedNumbers.
Import JS Zod Backend DisplaySettings Samples JSFacts Runs SchemaProperties.

Local Open Scope Z_scope.

(** *** Reading a decimal numeral *)

Lemma span_digits_uint (u : Decimal.uint) :
  span_digits 10 (DecimalString.NilEmpty.string_of_uint u) =
  (uint_digits u, ""%string).
Proof.
  induction u; cbn [DecimalString.NilEmpty.string_of_uint uint_digits];
    [reflexivity | ..];
    cbn [span_digits]; rewrite IHu; reflexivity.
Qed.

Lemma fold_digits_acc (u : Decimal.uint) (acc : positive) :
  fold_left (fun a d => a * 10 + d) (uint_digits u) (Z.pos acc) =
  Z.pos (Pos.of_uint_acc u acc).
Proof.
  revert acc. induction u; intros acc; cbn [uint_digits fold_left Pos.of_uint_acc];
    [reflexivity | ..];
    match goal with
    | |- fold_left _ _ ?z = Z.pos (Pos.of_uint_acc _ ?q) =>
        replace z with (Z.pos q) by lia
    end; apply IHu.
Qed.

Lemma digits_value_uint (u : Decimal.uint) :
  digits_value 10 (uint_digits u) = Z.of_N (Pos.of_uint u).
Proof.
  unfold digits_value.
  induction u; cbn [uint_digits fold_left Pos.of_uint];
    [reflexivity | exact IHu | ..];
    cbn [Z.mul Z.add Z.of_N]; apply fold_digits_acc.
Qed.

Lemma digits_value_decimal (p : positive) :
  digits_value 10 (uint_digits (Pos.to_uint p)) = Z.pos p.
Proof. now rewrite digits_value_uint, DecimalPos.Unsigned.of_to. Qed.

Lemma trimStart_uint (u : Decimal.uint) :
  trimStart (DecimalString.NilEmpty.string_of_uint u) =
  DecimalString.NilEmpty.string_of_uint u.
Proof. destruct u; reflexivity. Qed.

Lemma trimEnd_uint (u : Decimal.uint) :
  u <> Decimal.Nil ->
  trimEnd_aux (DecimalString.NilEmpty.string_of_uint u) =
  Some (DecimalString.NilEmpty.string_of_uint u).
Proof.
  induction u; intros H; [congruence | ..];
    cbn [DecimalString.NilEmpty.string_of_uint trimEnd_aux];
    (destruct u; [reflexivity | rewrite IHu by discriminate; reflexivity ..]).
Qed.

Lemma non_decimal_uint (u : Decimal.uint) :
  non_decimal (DecimalString.NilEmpty.string_of_uint u) = None.
Proof. destruct u as [|u|u|u|u|u|u|u|u|u|u]; try reflexivity; destruct u; reflexivity. Qed.

(** A numeral reads as the Number nearest to the integer it denotes. *)
Lemma StringToNumber_uint (u : Decimal.uint) :
  u <> Decimal.Nil ->
  StringToNumber (DecimalString.NilEmpty.string_of_uint u) =
  round_decimal false (digits_value 10 (uint_digits u)) 0.
Proof.
  intros Hu. unfold StringToNumber, trim.
  rewrite trimStart_uint, (trimEnd_uint _ Hu).
  pose proof (non_decimal_uint u) as Hn.
  pose proof (span_digits_uint u) as Hs.
  destruct u; [congruence | ..];
    cbn [DecimalString.NilEmpty.string_of_uint] in *;
    rewrite Hn; cbn [Ascii.eqb Bool.eqb];
    unfold unsigned_decimal; cbn [String.eqb Ascii.eqb Bool.eqb];
    rewrite Hs; cbn [uint_digits app exponent_part List.length];
    rewrite app_nil_r; reflexivity.
Qed.

Lemma StringToNumber_decimal (p : positive) :
  StringToNumber (decimal p) = of_Z (Z.pos p).
Proof.
  unfold decimal.
  rewrite (StringToNumber_uint _ (DecimalPos.Unsigned.to_uint_nonnil p)).
  rewrite digits_value_decimal. unfold round_decimal, of_Z.
  cbn [Z.leb Z.compare Z.pow Z.pow_pos Pos.iter]. now rewrite Z.mul_1_r.
Qed.

(** *** Rounding a small integer *)

Lemma digits2_pos_bounds (p : positive) :
  2 ^ (Z.pos (digits2_pos p) - 1) <= Z.pos p < 2 ^ Z.pos (digits2_pos p).
Proof.
  induction p as [p IH|p IH|]; cbn [digits2_pos].
  - rewrite Pos2Z.inj_succ.
    replace (Z.succ (Z.pos (digits2_pos p)) - 1) with
      (Z.succ (Z.pos (digits2_pos p) - 1)) by lia.
    rewrite !Z.pow_succ_r by lia. lia.
  - rewrite Pos2Z.inj_succ.
    replace (Z.succ (Z.pos (digits2_pos p)) - 1) with
      (Z.succ (Z.pos (digits2_pos p) - 1)) by lia.
    rewrite !Z.pow_succ_r by lia. lia.
  - cbn. lia.
Qed.

Lemma digits2_pos_small (p : positive) :
  Z.pos p < 2 ^ 53 -> Z.pos (digits2_pos p) <= 53.
Proof.
  intros H. destruct (Z.le_gt_cases (Z.pos (digits2_pos p)) 53) as [L|G];
    [exact L|].
  pose proof (digits2_pos_bounds p) as [B _].
  assert (2 ^ 53 <= 2 ^ (Z.pos (digits2_pos p) - 1))
    by (apply Z.pow_le_mono_r; lia).
  lia.
Qed.

Lemma digits2_pos_iter (p d : positive) :
  digits2_pos (Pos.iter xO p d) = (digits2_pos p + d)%positive.
Proof.
  induction d as [|d IH] using Pos.peano_ind.
  - cbn. lia.
  - rewrite Pos.iter_succ. cbn [digits2_pos]. rewrite IH. lia.
Qed.

Lemma iter_xO_value (p d : positive) :
  Z.pos (Pos.iter xO p d) = Z.pos p * 2 ^ Z.pos d.
Proof.
  induction d as [|d IH] using Pos.peano_ind.
  - cbn. lia.
  - rewrite Pos.iter_succ, Pos2Z.inj_xO, IH, Pos2Z.inj_succ.
    rewrite Z.pow_succ_r by lia. lia.
Qed.

(** A full-width mantissa is left as it is. *)
Lemma round_aux_exact (m : positive) (e : Z) :
  Z.pos (digits2_pos m) = 53 ->
  -1074 <= e <= 971 ->
  binary_round_aux prec emax false (Z.pos m) e loc_Exact =
  S754_finite false m e.
Proof.
  intros Hd He.
  assert (F : fexp prec emax (Z.pos (digits2_pos m) + e) - e = 0)
    by (unfold fexp, emin, prec, emax; rewrite Hd; lia).
  unfold binary_round_aux, shr_fexp.
  cbn [Zdigits2 shr_record_of_loc]. rewrite F. cbn [shr].
  cbn [shr_m loc_of_shr_record round_nearest_even Zdigits2 shr_record_of_loc].
  rewrite F. cbn [shr shr_m].
  replace (e <=? emax - prec) with true
    by (symmetry; apply Z.leb_le; unfold emax, prec; lia).
  reflexivity.
Qed.

(** An integer from 1 to 2^53 - 1 is a Number as it is: [of_Z] shifts it
    to a full-width mantissa and rounds nothing away. *)
Lemma of_Z_small (p : positive) :
  Z.pos p < 2 ^ 53 ->
  exists m e,
    of_Z (Z.pos p) = S754_finite false m e /\
    Z.pos (digits2_pos m) = 53 /\
    -52 <= e <= 0 /\
    Z.pos m = Z.pos p * 2 ^ (- e).
Proof.
  intros H. pose proof (digits2_pos_small p H) as Hk.
  unfold of_Z, binary_normalize, binary_round.
  assert (F : fexp prec emax (Z.pos (digits2_pos p) + 0) =
              Z.pos (digits2_pos p) - 53)
    by (unfold fexp, emin, prec, emax; lia).
  rewrite F. unfold shl_align.
  destruct (Z.pos (digits2_pos p) - 53 - 0) as [|q|d] eqn:E; [| lia |].
  - exists p, 0. split; [|split; [lia | split; [lia | cbn; lia]]].
    apply round_aux_exact; lia.
  - assert (Hd : Z.pos (digits2_pos p) - 53 = Z.neg d) by lia.
    exists (Pos.iter xO p d), (Z.pos (digits2_pos p) - 53).
    assert (D : Z.pos (digits2_pos (Pos.iter xO p d)) = 53)
      by (rewrite digits2_pos_iter; lia).
    split; [apply round_aux_exact; [exact D | lia]|].
    split; [exact D|]. split; [lia|].
    rewrite iter_xO_value. f_equal. f_equal. lia.
Qed.

Lemma of_Z_small_isInteger (p : positive) :
  Z.pos p < 2 ^ 53 -> isInteger (of_Z (Z.pos p)) = true.
Proof.
  intros H. destruct (of_Z_small p H) as (m & e & -> & _ & He & Hm).
  cbn [isInteger]. destruct (0 <=? e) eqn:L; [reflexivity|].
  apply Z.eqb_eq. rewrite Hm. apply Z.mod_mul.
  apply Z.pow_nonzero; lia.
Qed.

Lemma of_Z_small_at_least_one (p : positive) :
  Z.pos p < 2 ^ 53 -> le (of_Z 1) (of_Z (Z.pos p)) = true.
Proof.
  intros H. destruct (of_Z_small p H) as (m & e & -> & Hd & He & Hm).
  rewrite of_Z_1. unfold le, SFleb. cbn [SFcompare].
  destruct (Z.compare_spec (-52) e) as [E|L|G]; [|reflexivity|lia].
  subst e.
  assert (M : m = 4503599627370496%positive).
  { pose proof (digits2_pos_bounds m) as [_ B]. rewrite Hd in B.
    change (- -52) with 52 in Hm.
    assert (Z.pos p = 1) by nia. nia. }
  subst m. reflexivity.
Qed.

(** X19. For every whole number from 1 to 2^53 - 1 typed into the minutes
    field as a plain decimal numeral, with a non-empty colour, a
    submission is accepted and sends one upsert whose minutes are exactly
    that number: the Number in the row is an unrounded binary64
    representation of it. *)
Theorem typed_whole_minutes_are_saved
    (st : state) (resp : Response value) (p : positive) (c : string) :
  Z.pos p < 2 ^ 53 ->
  screensaverIdleMinutes (values st) = Str (decimal p) ->
  backgroundColor (values st) = Str c ->
  c <> ""%string ->
  well_typed_url (backgroundImageUrl (values st)) ->
  trace (submit resp) st =
    Upsert "app_settings"
      {| id := 1;
         columns :=
           {| background_image_url := or (backgroundImageUrl (values st)) Null;
              background_color := Str c;
              screensaver_idle_minutes := Num (of_Z (Z.pos p)) |} |}
      "id" :: onSubmit_answer resp /\
  exists m e,
    of_Z (Z.pos p) = S754_finite false m e /\
    e <= 0 /\ Z.pos m = Z.pos p * 2 ^ (- e).
Proof.
  intros Hp Hm Hc Hne Hu. split.
  - assert (N : ToNumber (Str (decimal p)) = of_Z (Z.pos p))
      by apply StringToNumber_decimal.
    assert (E : formSchema (values st) =
                inl {| backgroundImageUrl := backgroundImageUrl (values st);
                       backgroundColor := Str c;
                       screensaverIdleMinutes := Num (of_Z (Z.pos p)) |}).
    { unfold formSchema.
      rewrite (backgroundImageUrl_schema_ok _ Hu), Hc,
        (backgroundColor_schema_ok _ Hne), Hm.
      rewrite (screensaverIdleMinutes_schema_ok (Str (decimal p)));
        rewrite N;
        [reflexivity | now apply of_Z_small_isInteger
         | now apply of_Z_small_at_least_one]. }
    unfold trace. rewrite submit_run, E. reflexivity.
  - destruct (of_Z_small p Hp) as (m & e & E & _ & He & Hv).
    exists m, e. repeat split; [exact E | lia | exact Hv].
Qed.

Lemma typed_whole_minutes_are_saved_witness :
  trace (submit saved_ok) (form_with Null "#FF0000" "45") =
  Upsert "app_settings"
    {| id := 1;
       columns :=
         {| background_image_url := Null;
            background_color := Str "#FF0000";
            screensaver_idle_minutes := Num (of_Z 45) |} |}
    "id" :: onSubmit_answer saved_ok.
Proof.
  apply (typed_whole_minutes_are_saved
           (form_with Null "#FF0000" "45") saved_ok 45 "#FF0000");
    [reflexivity | reflexivity | reflexivity | discriminate | exact I].
Defined.

End TypedNumbers.

(** ** A first run, from load to save *)

Module FirstRun.
Import JS Zod Backend DisplaySettings Lifecycle Samples JSFacts Runs
  LifecycleProperties SchemaProperties TypedNumbers.

(** X24. On a first run (no row yet), when the user types a colour and whole
    minutes, uploads an image that is stored and gets a public URL, and
    submits, and the backend accepts the save: the component sends, in this
    order, the read, the storage upload, the request for the public URL and
    exactly one upsert, whose row has id 1 and carries the public URL, the
    colour and the minutes as typed; two success notifications are shown,
    and at the end nothing is in flight and the button is enabled again. *)
Theorem first_run_saves_what_was_entered
    (nf : Response AppSettings) (e : Error) (c : string) (p : positive)
    (file : File) (rest : list File) (env : UploadEnv) (r : Response string)
    (u : string) (resp : Response value) :
  error nf = Some e -> code e = Str "PGRST116" -> data nf = None ->
  c <> "" -> (Z.pos p < 2 ^ 53)%Z ->
  uploaded env = Resolved r -> error r = None ->
  publicUrlData env = Some (Str u) -> u <> "" ->
  error resp = None ->
  exists w,
    run start
      [Loaded nf;
       Typed f_backgroundColor (Str c);
       Typed f_screensaverIdleMinutes (Str (decimal p));
       Picked (Some (file :: rest)) env;
       Submitted;
       Saved resp] = Some w /\
    log w =
      [Select "app_settings"
         "background_image_url, background_color, screensaver_idle_minutes"
         "id" 1;
       ToastLoading "Mengunggah gambar latar belakang...";
       StorageUpload "images" (filePath env file) file "3600" false;
       GetPublicUrl "images" (filePath env file);
       ToastSuccess "Gambar latar belakang berhasil diunggah!"
         (Some (uploadToastId env));
       Upsert "app_settings"
         {| id := 1;
            columns :=
              {| background_image_url := Str u;
                 background_color := Str c;
                 screensaver_idle_minutes := Num (of_Z (Z.pos p)) |} |}
         "id";
       ToastSuccess "Pengaturan tampilan berhasil disimpan!" None;
       ConsoleLog "Display settings saved:" (data resp)] /\
    saving w = [] /\
    submit_disabled (component w) = false /\
    preview (component w) = Some (Str u).
Proof.
  intros He Hc Hd Hne Hp Hu Her Hurl Hune Hr.
  assert (T : truthy (Str u) = true) by (destruct u; [congruence | reflexivity]).
  assert (L : fetchSettings nf initial =
              (inr tt, initial,
               [Select "app_settings"
                  "background_image_url, background_color, screensaver_idle_minutes"
                  "id" 1])).
  { rewrite fetchSettings_run. cbv zeta. rewrite He, Hc, Hd. reflexivity. }
  set (st3 := with_values
                {| backgroundImageUrl := Null;
                   backgroundColor := Str c;
                   screensaverIdleMinutes := Str (decimal p) |} initial).
  assert (P : handleImageUpload (Some (file :: rest)) env st3 =
              (inr tt, uploaded_state (Str u) st3,
               [ToastLoading "Mengunggah gambar latar belakang...";
                StorageUpload "images" (filePath env file) file "3600" false;
                GetPublicUrl "images" (filePath env file);
                ToastSuccess "Gambar latar belakang berhasil diunggah!"
                  (Some (uploadToastId env))])).
  { rewrite handleImageUpload_run. cbv zeta. rewrite Hu, Her, Hurl.
    cbn [publicUrl]. rewrite T. reflexivity. }
  assert (N : ToNumber (Str (decimal p)) = of_Z (Z.pos p))
    by apply StringToNumber_decimal.
  assert (V : formSchema
                {| backgroundImageUrl := Str u;
                   backgroundColor := Str c;
                   screensaverIdleMinutes := Str (decimal p) |} =
              inl {| backgroundImageUrl := Str u;
                     backgroundColor := Str c;
                     screensaverIdleMinutes := Num (of_Z (Z.pos p)) |}).
  { unfold formSchema.
    cbn [backgroundImageUrl backgroundColor screensaverIdleMinutes].
    rewrite (backgroundImageUrl_schema_ok (Str u) I),
      (backgroundColor_schema_ok _ Hne).
    rewrite (screensaverIdleMinutes_schema_ok (Str (decimal p)));
      rewrite N;
      [reflexivity | now apply of_Z_small_isInteger
       | now apply of_Z_small_at_least_one]. }
  pose (asked :=
          Select "app_settings"
            "background_image_url, background_color, screensaver_idle_minutes"
            "id" 1).
  pose (uploading :=
          [ToastLoading "Mengunggah gambar latar belakang...";
           StorageUpload "images" (filePath env file) file "3600" false;
           GetPublicUrl "images" (filePath env file);
           ToastSuccess "Gambar latar belakang berhasil diunggah!"
             (Some (uploadToastId env))]).
  pose (parsed :=
          {| backgroundImageUrl := Str u;
             backgroundColor := Str c;
             screensaverIdleMinutes := Num (of_Z (Z.pos p)) |}).
  pose (w1 := {| component := initial; isSubmitted := false;
                 saving := []; log := [asked] |}).
  pose (w2 := {| component :=
                   with_values
                     (set_field f_backgroundColor (Str c) defaultValues) initial;
                 isSubmitted := false; saving := []; log := [asked] |}).
  pose (w3 := {| component := st3; isSubmitted := false;
                 saving := []; log := [asked] |}).
  pose (w4 := {| component := uploaded_state (Str u) st3;
                 isSubmitted := false;
                 saving := []; log := asked :: uploading |}).
  pose (w5 := {| component :=
                   with_errors no_errors
                     (with_isSubmitting true (uploaded_state (Str u) st3));
                 isSubmitted := false;
                 saving := [parsed];
                 log := (asked :: uploading ++ [onSubmit_request parsed])%list |}).
  pose (w6 := {| component := uploaded_state (Str u) st3;
                 isSubmitted := true;
                 saving := [];
                 log := (asked :: uploading ++ onSubmit_request parsed
                           :: onSubmit_answer resp)%list |}).
  assert (S1 : step start (Loaded nf) = Some w1).
  { cbn [step]. unfold within_step, state_after, trace.
    cbn [component start]. rewrite L. reflexivity. }
  assert (S2 : step w1 (Typed f_backgroundColor (Str c)) = Some w2)
    by reflexivity.
  assert (S3 : step w2 (Typed f_screensaverIdleMinutes (Str (decimal p))) =
               Some w3) by reflexivity.
  assert (S4 : step w3 (Picked (Some (file :: rest)) env) = Some w4).
  { cbn [step]. unfold within_step, state_after, trace.
    cbn [component w3]. rewrite P. reflexivity. }
  assert (S5 : step w4 Submitted = Some w5).
  { assert (V' : formSchema (values (component w4)) = inl parsed) by exact V.
    cbn [step]. rewrite begin_submission_run, V'. reflexivity. }
  assert (S6 : step w5 (Saved resp) = Some w6).
  { cbn [step saving w5]. rewrite end_submission_run. reflexivity. }
  exists w6. split.
  - cbn [run]. rewrite S1. cbv beta iota. rewrite S2. cbv beta iota.
    rewrite S3. cbv beta iota. rewrite S4. cbv beta iota.
    rewrite S5. cbv beta iota. rewrite S6. reflexivity.
  - split; [|split; [reflexivity | split; [reflexivity|]]].
    + cbn [log w6]. unfold onSubmit_answer, onSubmit_request, parsed.
      rewrite Hr. cbn [backgroundImageUrl backgroundColor screensaverIdleMinutes].
      rewrite (truthy_or _ _ T). reflexivity.
    + unfold preview. cbn [component w6 uploaded_state with_currentImageUrl
                           currentImageUrl].
      now rewrite T.
Qed.

Lemma first_run_saves_what_was_entered_witness :
  exists w,
    run start
      [Loaded not_found;
       Typed f_backgroundColor (Str "#FF0000");
       Typed f_screensaverIdleMinutes (Str (decimal 10));
       Picked (Some [{| name := "bg.jpg"; content := "" |}]) upload_ok;
       Submitted;
       Saved saved_ok] = Some w /\
    saving w = [] /\
    count is_upsert (log w) = 1%nat.
Proof.
  destruct (first_run_saves_what_was_entered not_found
              {| code := Str "PGRST116";
                 message := "JSON object requested, multiple (or no) rows returned" |}
              "#FF0000" 10 {| name := "bg.jpg"; content := "" |} [] upload_ok
              stored
              "https://cdn.example/storage/v1/object/public/images/backgrounds/123e4567-e89b-42d3-a456-426614174000.png"
              saved_ok)
    as (w & R & Lg & Sv & _); try reflexivity; try discriminate.
  exists w. split; [exact R|]. split; [exact Sv|]. now rewrite Lg.
Defined.

End FirstRun.
